(** * The AI transaction system: prompt parser, operation stubs, income ledger

    A shallow embedding of
      - [scripts/ai_prompt_handler.py]        (module [Prompt]),
      - [scripts/transaction_handler.py]      (module [Handler]),
      - [scripts/passive_income_generator.py] (module [Income]),
    together with the part of the Python runtime they rely on (module [Py])
    and the fragment of [re] used by the prompt patterns (module [Re]).

    Modelling conventions.
      - A Python [str] is a [string]; a character is its code point.  The
        character classes and [str.lower] are those of the 7-bit ASCII range;
        code points from 128 on are outside the modelled alphabet (they are
        left unchanged by [lower] and belong to no class but [.]).
      - A Python [float] is an exact rational ([Q]); IEEE rounding, overflow
        and signed zeros are not modelled.  [float()] of a string additionally
        yields the two special values it can parse ([inf], [nan]).
      - A call either returns or raises: [outcome].
      - The files the scripts read and write, and nothing else, make up the
        [World] that stateful functions thread. *)

From Stdlib Require Import ZArith QArith Qpower String Ascii List Bool Lia
  DecimalString Floats.
From stdpp Require Import gmap strings list fin_maps.
Import ListNotations.

Local Open Scope string_scope.
Local Open Scope list_scope.

(** ** Exceptions and outcomes *)

Inductive exn :=
  | ValueError | TypeError | KeyError | IndexError
  | FileNotFoundError | JSONDecodeError.

Inductive outcome (A : Type) :=
  | Returns (a : A)
  | Raises (e : exn).
Arguments Returns {A} a.
Arguments Raises {A} e.

(** ** The Python runtime *)

Module Py.

Definition code (c : ascii) : N := N_of_ascii c.

Definition between (lo hi : N) (c : ascii) : bool :=
  ((lo <=? code c) && (code c <=? hi))%N.

Definition is_digit (c : ascii) : bool := between 48 57 c.
Definition is_upper (c : ascii) : bool := between 65 90 c.
Definition is_lower (c : ascii) : bool := between 97 122 c.

(** [\w]: letters, digits and the underscore. *)
Definition is_word (c : ascii) : bool :=
  is_digit c || is_upper c || is_lower c || (code c =? 95)%N.

(** [\s]: tab, newline, vertical tab, form feed, carriage return, the four
    separators 28..31 and the space. *)
Definition is_space (c : ascii) : bool :=
  between 9 13 c || between 28 31 c || (code c =? 32)%N.

(** [str.lower()] *)
Definition lower_char (c : ascii) : ascii :=
  if is_upper c then ascii_of_N (code c + 32) else c.

Fixpoint lower (s : string) : string :=
  match s with
  | EmptyString => EmptyString
  | String c s' => String (lower_char c) (lower s')
  end.

(** [s.startswith(w)] *)
Fixpoint startswith (w s : string) : bool :=
  match w, s with
  | EmptyString, _ => true
  | String a w', String b s' => Ascii.eqb a b && startswith w' s'
  | String _ _, EmptyString => false
  end.

(** [w in s] on strings: [w] occurs in [s] as a substring. *)
Fixpoint str_in (w s : string) : bool :=
  startswith w s ||
  match s with
  | EmptyString => false
  | String _ s' => str_in w s'
  end.

(** [any(w in s for w in ws)] *)
Definition any_in (ws : list string) (s : string) : bool :=
  existsb (fun w => str_in w s) ws.

(** *** [float(str)] *)

Inductive pyfloat :=
  | Finite (q : Q)
  | Inf (negative : bool)
  | NaN.

Definition digit_val (c : ascii) : Z := Z.of_N (code c) - 48.

(** The rest of a [digitpart ::= digit (["_"] digit)*] once its first digit
    is read: [acc] is the value of the digits so far, [n] their number. *)
Fixpoint digits_tail (acc n : Z) (s : string) : Z * Z * string :=
  match s with
  | String c s' =>
      if is_digit c then digits_tail (10 * acc + digit_val c) (n + 1) s'
      else if Ascii.eqb c "_" then
        match s' with
        | String d s'' =>
            if is_digit d
            then digits_tail (10 * acc + digit_val d) (n + 1) s''
            else (acc, n, s)
        | EmptyString => (acc, n, s)
        end
      else (acc, n, s)
  | EmptyString => (acc, n, s)
  end.

Definition digitpart (acc n : Z) (s : string) : option (Z * Z * string) :=
  match s with
  | String c s' =>
      if is_digit c
      then Some (digits_tail (10 * acc + digit_val c) (n + 1) s')
      else None
  | EmptyString => None
  end.

(** [number ::= [digitpart] "." digitpart | digitpart ["."]]: the digits
    read as one integer, the number of digits after the point, the rest. *)
Definition number (s : string) : option (Z * Z * string) :=
  match digitpart 0 0 s with
  | Some (m, _, rest) =>
      match rest with
      | String "."%char rest' =>
          match digitpart m 0 rest' with
          | Some r => Some r
          | None => Some (m, 0%Z, rest')
          end
      | _ => Some (m, 0%Z, rest)
      end
  | None =>
      match s with
      | String "."%char rest' => digitpart 0 0 rest'
      | _ => None
      end
  end.

(** [exponent ::= "e" [sign] digitpart], absent when the rest is empty. *)
Definition exponent (s : string) : option Z :=
  match s with
  | EmptyString => Some 0%Z
  | String "e"%char s' =>
      let '(neg, s'') :=
        match s' with
        | String "+"%char t => (false, t)
        | String "-"%char t => (true, t)
        | _ => (false, s')
        end in
      match digitpart 0 0 s'' with
      | Some (e, _, EmptyString) => Some (if neg then (- e)%Z else e)
      | _ => None
      end
  | _ => None
  end.

Definition decimal (m k e : Z) : Q :=
  Qred (inject_Z m * Qpower (inject_Z 10) (e - k)).

Definition absfloatvalue (s : string) : option pyfloat :=
  if String.eqb s "inf" || String.eqb s "infinity" then Some (Inf false)
  else if String.eqb s "nan" then Some NaN
  else
    match number s with
    | Some (m, k, rest) =>
        match exponent rest with
        | Some e => Some (Finite (decimal m k e))
        | None => None
        end
    | None => None
    end.

Definition negate (x : pyfloat) : pyfloat :=
  match x with
  | Finite q => Finite (Qred (- q))
  | Inf b => Inf (negb b)
  | NaN => NaN
  end.

(** The whitespace [float] drops around an ASCII string: tab to
    carriage return and the space (not the separators 28..31). *)
Definition is_float_space (c : ascii) : bool :=
  between 9 13 c || (code c =? 32)%N.

Fixpoint lstrip (s : string) : string :=
  match s with
  | String c s' => if is_float_space c then lstrip s' else s
  | EmptyString => EmptyString
  end.

Fixpoint rstrip (s : string) : string :=
  match s with
  | String c s' =>
      let t := rstrip s' in
      if is_float_space c && String.eqb t "" then "" else String c t
  | EmptyString => EmptyString
  end.

(** [float(s)]: surrounding whitespace is dropped, the case of letters is
    not significant, a sign may lead; anything else raises [ValueError].
    Which strings are accepted is as in Python; the value of an accepted
    decimal is its exact rational, where Python rounds it to binary64 and
    gives [inf] beyond the largest double. *)
Definition float (s : string) : outcome pyfloat :=
  let r :=
    match lower (rstrip (lstrip s)) with
    | String "+"%char t => absfloatvalue t
    | String "-"%char t => option_map negate (absfloatvalue t)
    | t => absfloatvalue t
    end in
  match r with
  | Some x => Returns x
  | None => Raises ValueError
  end.

(** [str(n)] for an [int]. *)
Definition str_int (n : Z) : string := NilZero.string_of_int (Z.to_int n).

End Py.

(** ** The fragment of [re] used by the prompt patterns

    Every pattern of the parser is a sequence of literal characters and of
    greedy repetitions [k+] or [k*] of one character class, some of them
    captured by a group.  [search] is the backtracking matcher of [re.search]
    on that fragment: leftmost start, each repetition as long as possible,
    giving characters back one at a time when the rest fails. *)

Module Re.

Inductive cclass :=
  | Word        (* \w *)
  | Space       (* \s *)
  | DigitDot    (* [\d.] *)
  | AnyChar.    (* . *)

Definition in_class (k : cclass) (c : ascii) : bool :=
  match k with
  | Word => Py.is_word c
  | Space => Py.is_space c
  | DigitDot => Py.is_digit c || Ascii.eqb c "."
  | AnyChar => negb (Py.code c =? 10)%N
  end.

Inductive item :=
  | Lit (c : ascii)
  | Rep (k : cclass) (min : nat) (captured : bool).

Definition pattern := list item.

(** [groups()] of a match, in the order of the groups in the pattern. *)
Definition captures := list string.

(** Greedy [k{min,}] followed by [rest]: the text the repetition consumed
    and the captures of [rest]. *)
Fixpoint rep (k : cclass) (min : nat) (rest : string -> option captures)
    (s : string) : option (string * captures) :=
  let stop :=
    match min with
    | O => option_map (fun g => (EmptyString, g)) (rest s)
    | S _ => None
    end in
  match s with
  | String c s' =>
      if in_class k c then
        match rep k (pred min) rest s' with
        | Some (t, g) => Some (String c t, g)
        | None => stop
        end
      else stop
  | EmptyString => stop
  end.

(** The pattern matched at the start of [s]. *)
Fixpoint match_here (p : pattern) : string -> option captures :=
  match p with
  | [] => fun _ => Some []
  | Lit c :: p' => fun s =>
      match s with
      | String x s' => if Ascii.eqb x c then match_here p' s' else None
      | EmptyString => None
      end
  | Rep k min captured :: p' => fun s =>
      match rep k min (match_here p') s with
      | Some (t, g) => Some (if captured then t :: g else g)
      | None => None
      end
  end.

(** [re.search(p, s)]: the first position of [s] where [p] matches. *)
Fixpoint search (p : pattern) (s : string) : option captures :=
  match match_here p s with
  | Some g => Some g
  | None =>
      match s with
      | String _ s' => search p s'
      | EmptyString => None
      end
  end.

(** Pattern syntax. *)
Fixpoint lit (w : string) : pattern :=
  match w with
  | EmptyString => []
  | String c w' => Lit c :: lit w'
  end.

Definition plus (k : cclass) : pattern := [Rep k 1 false].
Definition star (k : cclass) : pattern := [Rep k 0 false].
Definition group_plus (k : cclass) : pattern := [Rep k 1 true].

End Re.

(** ** [ai_prompt_handler.py] *)

Module Prompt.
Import Re.

Inductive intent :=
  | Transfer (from_wallet to_wallet : string) (amount : Py.pyfloat)
  | QueryBalance (wallet_address : string)
  | Stake (amount : Py.pyfloat) (wallet : option string)
  | IncomeReport
  | Unknown (original_prompt : string).

Definition ws : pattern := plus Space.            (* \s+      *)
Definition num : pattern := group_plus DigitDot.  (* ([\d.]+) *)
Definition word : pattern := group_plus Word.     (* (\w+)    *)
Definition any : pattern := star AnyChar.         (* .*       *)

Definition transfer_patterns : list pattern :=
  [ (* transfer\s+([\d.]+)\s+sol\s+from\s+(\w+)\s+to\s+(\w+) *)
    lit "transfer" ++ ws ++ num ++ ws ++ lit "sol" ++ ws ++ lit "from"
      ++ ws ++ word ++ ws ++ lit "to" ++ ws ++ word;
    (* send\s+([\d.]+)\s+sol\s+from\s+(\w+)\s+to\s+(\w+) *)
    lit "send" ++ ws ++ num ++ ws ++ lit "sol" ++ ws ++ lit "from"
      ++ ws ++ word ++ ws ++ lit "to" ++ ws ++ word;
    (* pay\s+(\w+)\s+([\d.]+)\s+sol\s+from\s+(\w+) *)
    lit "pay" ++ ws ++ word ++ ws ++ num ++ ws ++ lit "sol" ++ ws
      ++ lit "from" ++ ws ++ word ].

Definition balance_patterns : list pattern :=
  [ (* balance\s+of\s+(\w+) *)
    lit "balance" ++ ws ++ lit "of" ++ ws ++ word;
    (* what.*balance.*(\w+) *)
    lit "what" ++ any ++ lit "balance" ++ any ++ word;
    (* check\s+balance\s+(\w+) *)
    lit "check" ++ ws ++ lit "balance" ++ ws ++ word;
    (* how\s+much.*(\w+) *)
    lit "how" ++ ws ++ lit "much" ++ any ++ word ].

Definition staking_patterns : list pattern :=
  [ (* stake\s+([\d.]+)\s+sol\s+from\s+(\w+) *)
    lit "stake" ++ ws ++ num ++ ws ++ lit "sol" ++ ws ++ lit "from"
      ++ ws ++ word;
    (* stake\s+([\d.]+)\s+sol *)
    lit "stake" ++ ws ++ num ++ ws ++ lit "sol";
    (* create.*passive.*income.*with\s+([\d.]+)\s+sol *)
    lit "create" ++ any ++ lit "passive" ++ any ++ lit "income" ++ any
      ++ lit "with" ++ ws ++ num ++ ws ++ lit "sol";
    (* start\s+staking\s+([\d.]+)\s+sol *)
    lit "start" ++ ws ++ lit "staking" ++ ws ++ num ++ ws ++ lit "sol" ].

Definition report_words : list string :=
  ["report"; "income"; "earnings"; "revenue"].
Definition income_words : list string :=
  ["passive"; "total"; "generated"].

(** The three [for pattern in ...] loops.  [None]: the loop ran to its end
    without returning. *)
Fixpoint scan_transfer (ps : list pattern) (s : string)
    : option (outcome intent) :=
  match ps with
  | [] => None
  | p :: ps' =>
      match search p s with
      | Some [amount; from_wallet; to_wallet] =>
          Some match Py.float amount with
               | Returns a => Returns (Transfer from_wallet to_wallet a)
               | Raises e => Raises e
               end
      | _ => scan_transfer ps' s
      end
  end.

Fixpoint scan_balance (ps : list pattern) (s : string)
    : option (outcome intent) :=
  match ps with
  | [] => None
  | p :: ps' =>
      match search p s with
      | Some (wallet :: _) => Some (Returns (QueryBalance wallet))
      | Some [] => Some (Raises IndexError)
      | None => scan_balance ps' s
      end
  end.

Fixpoint scan_staking (ps : list pattern) (s : string)
    : option (outcome intent) :=
  match ps with
  | [] => None
  | p :: ps' =>
      match search p s with
      | Some (amount :: more) =>
          let wallet := match more with w :: _ => Some w | [] => None end in
          Some match Py.float amount with
               | Returns a => Returns (Stake a wallet)
               | Raises e => Raises e
               end
      | _ => scan_staking ps' s
      end
  end.

Definition parse_ai_prompt (prompt_text : string) : outcome intent :=
  let prompt_text_lower := Py.lower prompt_text in
  match scan_transfer transfer_patterns prompt_text_lower with
  | Some r => r
  | None =>
  match scan_balance balance_patterns prompt_text_lower with
  | Some r => r
  | None =>
  match scan_staking staking_patterns prompt_text_lower with
  | Some r => r
  | None =>
      if Py.any_in report_words prompt_text_lower
         && Py.any_in income_words prompt_text_lower
      then Returns IncomeReport
      else Returns (Unknown prompt_text)
  end end end.

End Prompt.

(** ** The files of the system *)

(** [config/system-config.json], as far as the scripts read it. *)
Record FeeStructure := { passiveIncomePercentage : Q }.
Record Config := { devVaultWallet : string; feeStructure : FeeStructure }.

(** The scalars stored in a transaction record. *)
Inductive value :=
  | VNum (q : Q)
  | VStr (s : string)
  | VNull.

(** [data/passive_income_log.json]: the Income Log. *)
Record Log := {
  transactions : list (gmap string value);
  total_income : Q
}.

Inductive ledger_file :=
  | Absent                (* no such file *)
  | Corrupt               (* a file that [json.load] rejects *)
  | Stored (log : Log).

Record World := {
  config_file : option Config;
  data_dir : bool;         (* does the directory [data/] exist *)
  data_file : ledger_file
}.

(** Computations that read and write the files and may raise. *)
Definition M (A : Type) : Type := World -> outcome A * World.

Definition ret {A} (a : A) : M A := fun w => (Returns a, w).
Definition raise {A} (e : exn) : M A := fun w => (Raises e, w).
Definition bind {A B} (m : M A) (k : A -> M B) : M B :=
  fun w =>
    match m w with
    | (Returns a, w') => k a w'
    | (Raises e, w') => (Raises e, w')
    end.

Notation "'let*' x ':=' m 'in' k" := (bind m (fun x => k))
  (at level 10, x name, m at level 100, k at level 200).

(** [with open(CONFIG_PATH, 'r') as f: return json.load(f)] *)
Definition load_config : M Config :=
  fun w =>
    match config_file w with
    | Some c => (Returns c, w)
    | None => (Raises FileNotFoundError, w)
    end.

(** [DATA_PATH.parent.mkdir(parents=True, exist_ok=True)] *)
Definition mkdir_data : M unit :=
  fun w => (Returns tt,
            {| config_file := config_file w; data_dir := true;
               data_file := data_file w |}).

(** [DATA_PATH.exists()] *)
Definition data_exists : M bool :=
  fun w => (Returns (match data_file w with Absent => false | _ => true end), w).

(** [with open(DATA_PATH, 'r') as f: log = json.load(f)] *)
Definition load_data : M Log :=
  fun w =>
    match data_file w with
    | Stored log => (Returns log, w)
    | Corrupt => (Raises JSONDecodeError, w)
    | Absent => (Raises FileNotFoundError, w)
    end.

(** [with open(DATA_PATH, 'w') as f: json.dump(log, f, indent=2)]: the file
    holds the log itself, what [json.load] gives back from the dump. *)
Definition dump_data (log : Log) : M unit :=
  fun w => (Returns tt,
            {| config_file := config_file w; data_dir := data_dir w;
               data_file := Stored log |}).

(** [l[-n:]] for a positive [n]. *)
Definition last_n {A} (n : nat) (l : list A) : list A :=
  drop (length l - n) l.


(** ** [passive_income_generator.py] *)

Module Income.
Section WithRuntime.

(** [hash] of a string is fixed within one process only, and [str] of a
    float is the runtime's shortest round-trip printing: both are taken as
    given. *)
Variable hash : string -> Z.
Variable str_float : Q -> string.

(** [transaction_data.get('amount', 0)] added to the running total. *)
Definition add_amount (total : Q) (transaction_data : gmap string value)
    : M Q :=
  match transaction_data !! "amount" with
  | None => ret (total + 0)%Q
  | Some (VNum q) => ret (total + q)%Q
  | Some (VStr _) | Some VNull => raise TypeError
  end.

(** [now] is the reading of [datetime.now().isoformat()] at the call.  The
    timestamp is written into the caller's dictionary; no caller looks at
    its dictionary afterwards, so only the stamped record in the log is
    kept. *)
Definition log_income_transaction (now : string)
    (transaction_data : gmap string value) : M Log :=
  let* _ := mkdir_data in
  let* present := data_exists in
  let* log := (if present : bool then load_data
               else ret {| transactions := []; total_income := 0 |}) in
  let transaction_data := <["timestamp" := VStr now]> transaction_data in
  let transactions' := transactions log ++ [transaction_data] in
  let* total' := add_amount (total_income log) transaction_data in
  let log := {| transactions := transactions'; total_income := total' |} in
  let* _ := dump_data log in
  ret log.

Record StakeResult := {
  sr_status : string;
  sr_operation : string;
  sr_strategy : string;
  sr_wallet : string;
  sr_amount : Q;
  sr_validator : string;
  sr_dev_vault : string;
  sr_network : string;
  sr_expected_apy : string;
  sr_signature : string;
  sr_instructions : list string;
  sr_cli_commands : list string
}.

Definition staking_record (wallet : string) (amount : Q)
    (dev_vault : string) : gmap string value :=
  {[ "type" := VStr "staking";
     "amount" := VNum amount;
     "wallet" := VStr wallet;
     "dev_vault" := VStr dev_vault;
     "status" := VStr "initiated" ]}.

Definition stake_for_rewards (now : string)
    (wallet : string) (amount : Q) (validator private_key network : string)
    : M StakeResult :=
  let* config := load_config in
  let dev_vault := devVaultWallet config in
  let result := {|
    sr_status := "success";
    sr_operation := "stake_for_rewards";
    sr_strategy := "staking";
    sr_wallet := wallet;
    sr_amount := amount;
    sr_validator := validator;
    sr_dev_vault := dev_vault;
    sr_network := network;
    sr_expected_apy := "5-10%";
    sr_signature :=
      "SIMULATED_STAKE_" +:+ Py.str_int (hash (wallet +:+ str_float amount));
    sr_instructions :=
      [ "1. Create stake account for " +:+ str_float amount +:+ " SOL";
        "2. Delegate stake to validator: " +:+ validator;
        "3. Configure rewards withdrawal to dev vault: " +:+ dev_vault;
        "4. Stake will generate ongoing passive income";
        "5. All rewards automatically sent to dev vault" ];
    sr_cli_commands :=
      [ "solana create-stake-account <stake_keypair> " +:+ str_float amount;
        "solana delegate-stake <stake_account> " +:+ validator;
        "solana withdraw-stake <stake_account> " +:+ dev_vault
          +:+ " <amount>" ]
  |} in
  let* _ :=
    log_income_transaction now (staking_record wallet amount dev_vault) in
  ret result.

Record TokenAccountResult := {
  ta_status : string;
  ta_operation : string;
  ta_strategy : string;
  ta_wallet : string;
  ta_token_mint : string;
  ta_dev_vault : string;
  ta_network : string;
  ta_signature : string;
  ta_instructions : list string;
  ta_cli_commands : list string
}.

Definition create_token_account_for_fees
    (wallet token_mint private_key network : string) : M TokenAccountResult :=
  let* config := load_config in
  let dev_vault := devVaultWallet config in
  ret {|
    ta_status := "success";
    ta_operation := "create_token_account";
    ta_strategy := "token_fees";
    ta_wallet := wallet;
    ta_token_mint := token_mint;
    ta_dev_vault := dev_vault;
    ta_network := network;
    ta_signature :=
      "SIMULATED_TOKEN_ACCOUNT_" +:+ Py.str_int (hash (wallet +:+ token_mint));
    ta_instructions :=
      [ "1. Create associated token account for mint: " +:+ token_mint;
        "2. Configure account owner as dev vault: " +:+ dev_vault;
        "3. Account will receive token fees and transfers";
        "4. All tokens automatically owned by dev vault" ];
    ta_cli_commands :=
      [ "spl-token create-account " +:+ token_mint;
        "spl-token authorize <token_account> owner " +:+ dev_vault ]
  |}.

Record Strategies := { staking : nat; token_fees : nat; other : nat }.

(** The dictionary [get_income_report] returns; [None] is a key that the
    dictionary does not have. *)
Record Report := {
  r_total_income : Q;
  r_transaction_count : nat;
  r_transactions : option (list (gmap string value));
  r_recent_transactions : option (list (gmap string value));
  r_strategies : option Strategies
}.

(** [sum(1 for t in ts if cond(t.get('type')))] *)
Definition count_type (cond : option value -> bool)
    (ts : list (gmap string value)) : nat :=
  length (filter (fun t => cond (t !! "type") = true) ts).

Definition type_is (name : string) (v : option value) : bool :=
  match v with
  | Some (VStr s) => String.eqb s name
  | _ => false
  end.

Definition get_income_report : M Report :=
  let* present := data_exists in
  if negb present then
    ret {| r_total_income := 0;
           r_transaction_count := 0;
           r_transactions := Some [];
           r_recent_transactions := None;
           r_strategies := None |}
  else
    let* log := load_data in
    ret {| r_total_income := total_income log;
           r_transaction_count := length (transactions log);
           r_transactions := None;
           r_recent_transactions := Some (last_n 10 (transactions log));
           r_strategies := Some {|
             staking := count_type (type_is "staking") (transactions log);
             token_fees :=
               count_type (type_is "token_fees") (transactions log);
             other :=
               count_type
                 (fun v => negb (type_is "staking" v || type_is "token_fees" v))
                 (transactions log) |} |}.

End WithRuntime.
End Income.

(** ** [transaction_handler.py] *)

Module Handler.
Section WithRuntime.

Variable hash : string -> Z.
Variable str_float : Q -> string.

Record TransferResult := {
  tr_status : string;
  tr_operation : string;
  tr_from : string;
  tr_to : string;
  tr_amount : Q;
  tr_dev_vault : string;
  tr_dev_vault_amount : Q;
  tr_network : string;
  tr_signature : string;
  tr_instructions : list string
}.

Definition transfer_sol
    (from_wallet to_wallet : string) (amount : Q)
    (private_key network : string) : M TransferResult :=
  let* config := load_config in
  let dev_vault := devVaultWallet config in
  ret {|
    tr_status := "success";
    tr_operation := "transfer_sol";
    tr_from := from_wallet;
    tr_to := to_wallet;
    tr_amount := amount;
    tr_dev_vault := dev_vault;
    tr_dev_vault_amount :=
      (amount * (passiveIncomePercentage (feeStructure config) / 100))%Q;
    tr_network := network;
    tr_signature :=
      "SIMULATED_SIGNATURE_"
        +:+ Py.str_int (hash (from_wallet +:+ to_wallet +:+ str_float amount));
    tr_instructions :=
      [ "1. Create transaction transferring " +:+ str_float amount
          +:+ " SOL from " +:+ from_wallet +:+ " to " +:+ to_wallet;
        "2. All proceeds (" +:+ str_float amount
          +:+ " SOL) directed to dev vault: " +:+ dev_vault;
        "3. Sign transaction with provided private key";
        "4. Submit to Solana network";
        "5. Wait for confirmation" ]
  |}.

Record BalanceResult := {
  br_status : string;
  br_operation : string;
  br_wallet : string;
  br_network : string;
  br_instructions : list string;
  br_note : string
}.

Definition query_balance (wallet_address network : string)
    : M BalanceResult :=
  let* config := load_config in
  ret {|
    br_status := "success";
    br_operation := "query_balance";
    br_wallet := wallet_address;
    br_network := network;
    br_instructions :=
      [ "1. Connect to Solana " +:+ network +:+ " network";
        "2. Query balance for wallet: " +:+ wallet_address;
        "3. Return balance in SOL and lamports" ];
    br_note :=
      "Use Solana CLI: solana balance <wallet_address> --url <network_url>"
  |}.

End WithRuntime.
End Handler.


(** ** [ai_prompt_handler.py]: requests *)

(** The stubs compute with rationals; an amount that [float] read as [inf]
    or [nan] has no rational. *)
Definition finite (x : Py.pyfloat) : option Q :=
  match x with
  | Py.Finite q => Some q
  | Py.Inf _ | Py.NaN => None
  end.

(** What a command-line run ends with: [sys.exit(code)] after a usage
    message, or the value it prints. *)
Inductive finished (A : Type) :=
  | SysExit (code : nat)
  | Printed (a : A).
Arguments SysExit {A} code.
Arguments Printed {A} a.

Definition lift {A} (r : outcome A) : M A := fun w => (r, w).

Module Request.
Section WithRuntime.

Variable hash : string -> Z.
Variable str_float : Q -> string.

(** The five dictionaries [process_ai_request] returns, one per branch. *)
Inductive Response :=
  | RTransfer (ai_response : string) (details : Handler.TransferResult)
      (next_steps : list string)
  | RBalance (ai_response : string) (details : Handler.BalanceResult)
      (note : string)
  | RStake (ai_response : string) (details : Income.StakeResult)
      (expected_returns : string)
  | RReport (ai_response : string) (details : Income.Report)
  | RUnknown (ai_response : string) (available_operations : list string)
      (note : string).

Definition success (r : Response) : bool :=
  match r with
  | RUnknown _ _ _ => false
  | _ => true
  end.

Definition operation (r : Response) : string :=
  match r with
  | RTransfer _ _ _ => "transfer"
  | RBalance _ _ _ => "query_balance"
  | RStake _ _ _ => "stake"
  | RReport _ _ => "income_report"
  | RUnknown _ _ _ => "unknown"
  end.

(** [if credentials]: neither [None] nor the empty dictionary. *)
Definition truthy (credentials : option (gmap string string)) : bool :=
  match credentials with
  | Some c => negb (bool_decide (c = ∅))
  | None => false
  end.

(** [credentials.get(key, dflt) if credentials else dflt] *)
Definition cred_get (credentials : option (gmap string string))
    (key dflt : string) : string :=
  match credentials with
  | Some c => if truthy credentials then default dflt (c !! key) else dflt
  | None => dflt
  end.

(** [credentials.get(key) if credentials else None] *)
Definition cred_find (credentials : option (gmap string string))
    (key : string) : option string :=
  match credentials with
  | Some c => if truthy credentials then c !! key else None
  | None => None
  end.

(** [a or b] on values that are a string or [None]: [None] and the empty
    string are false. *)
Definition py_or (a b : option string) : option string :=
  match a with
  | Some s => if String.eqb s "" then b else a
  | None => b
  end.

(** [None]: the amount of the intent is [inf] or [nan], which the stubs of
    this model do not take. *)
Definition process_ai_request (now prompt_text : string)
    (credentials : option (gmap string string)) : M (option Response) :=
  let* config := load_config in
  let dev_vault := devVaultWallet config in
  let* intent := lift (Prompt.parse_ai_prompt prompt_text) in
  match intent with
  | Prompt.Transfer from_wallet to_wallet amount =>
      match finite amount with
      | None => ret None
      | Some amount =>
          let private_key := cred_get credentials "private_key" "REQUIRED" in
          let network := cred_get credentials "network" "devnet" in
          let* result :=
            Handler.transfer_sol hash str_float
              from_wallet to_wallet amount private_key network in
          ret (Some (RTransfer
            ("Transfer of " +:+ str_float amount
               +:+ " SOL initiated. All proceeds will go to dev vault "
               +:+ dev_vault +:+ ".")
            result
            [ "Transaction has been created";
              "Signature will be returned once confirmed";
              "Dev vault " +:+ dev_vault +:+ " will receive the funds" ]))
      end
  | Prompt.QueryBalance wallet_address =>
      let network := cred_get credentials "network" "devnet" in
      let* result := Handler.query_balance wallet_address network in
      ret (Some (RBalance
        ("Balance query for wallet " +:+ wallet_address)
        result
        "Use Solana CLI or RPC to get actual balance"))
  | Prompt.Stake amount wallet =>
      match finite amount with
      | None => ret None
      | Some amount =>
          let private_key := cred_get credentials "private_key" "REQUIRED" in
          let validator :=
            cred_get credentials "validator" "DEFAULT_VALIDATOR" in
          let network := cred_get credentials "network" "devnet" in
          let wallet :=
            default "REQUIRED_WALLET"
              (py_or (py_or wallet (cred_find credentials "wallet"))
                 (Some "REQUIRED_WALLET")) in
          let* result :=
            Income.stake_for_rewards hash str_float
              now wallet amount validator private_key network in
          ret (Some (RStake
            ("Staking " +:+ str_float amount
               +:+ " SOL to generate passive income. "
               +:+ "All rewards go to dev vault " +:+ dev_vault +:+ ".")
            result
            "5-10% APY, all going to dev vault"))
      end
  | Prompt.IncomeReport =>
      let* report := Income.get_income_report in
      ret (Some (RReport
        ("Total passive income generated: "
           +:+ str_float (Income.r_total_income report) +:+ " SOL across "
           +:+ Py.str_int (Z.of_nat (Income.r_transaction_count report))
           +:+ " transactions.")
        report))
  | Prompt.Unknown _ =>
      ret (Some (RUnknown
        "I couldn't understand that request. Here are available operations:"
        [ "Transfer SOL: 'Transfer X SOL from wallet A to wallet B'";
          "Check balance: 'What is the balance of wallet X?'";
          "Stake for income: 'Stake X SOL to generate passive income'";
          "Income report: 'Show passive income report'" ]
        ("All transactions benefit dev vault: " +:+ dev_vault)))
  end.

(** The loop of [main] over [sys.argv[2:]], which builds the credentials:
    a flag takes the argument after it, when there is one. *)
Fixpoint parse_flags (args : list string)
    (credentials : gmap string string) : gmap string string :=
  match args with
  | [] => credentials
  | arg :: rest =>
      let credentials :=
        match rest with
        | next :: _ =>
            if String.eqb arg "--private-key"
            then <["private_key" := next]> credentials
            else if String.eqb arg "--network"
            then <["network" := next]> credentials
            else if String.eqb arg "--validator"
            then <["validator" := next]> credentials
            else credentials
        | [] => credentials
        end in
      parse_flags rest credentials
  end.

End WithRuntime.
End Request.

(** ** The command lines of the two other scripts *)

Module Cli.
Section WithRuntime.

Variable hash : string -> Z.
Variable str_float : Q -> string.



Inductive income_output :=
  | OutStake (r : Income.StakeResult)
  | OutTokenAccount (r : Income.TokenAccountResult)
  | OutReport (r : Income.Report).

(** [passive_income_generator.main] *)
Definition income_main (now : string) (argv : list string)
    : M (option (finished income_output)) :=
  match argv with
  | _ :: operation :: args =>
      if String.eqb operation "stake" then
        match args with
        | wallet :: amount :: validator :: private_key :: more =>
            let* amount := lift (Py.float amount) in
            let network :=
              match more with n :: _ => n | [] => "devnet" end in
            match finite amount with
            | None => ret None
            | Some amount =>
                let* result :=
                  Income.stake_for_rewards hash str_float
                    now wallet amount validator private_key network in
                ret (Some (Printed (OutStake result)))
            end
        | _ => ret (Some (SysExit 1))
        end
      else if String.eqb operation "create-token-account" then
        match args with
        | wallet :: token_mint :: private_key :: more =>
            let network :=
              match more with n :: _ => n | [] => "devnet" end in
            let* result :=
              Income.create_token_account_for_fees hash
                wallet token_mint private_key network in
            ret (Some (Printed (OutTokenAccount result)))
        | _ => ret (Some (SysExit 1))
        end
      else if String.eqb operation "report" then
        let* report := Income.get_income_report in
        ret (Some (Printed (OutReport report)))
      else ret (Some (SysExit 1))
  | _ => ret (Some (SysExit 1))
  end.

End WithRuntime.
End Cli.

(** ** Vocabulary of the specification *)

(** [w] occurs in [s]: some text before it, some text after it. *)
Definition occurs_in (w s : string) : Prop :=
  exists pre post : string, s = pre +:+ w +:+ post.

(** The tokens of a text: its maximal runs of word characters, in order.
    [cur] is the run being read. *)
Fixpoint tokens_from (cur s : string) : list string :=
  let flush := if String.eqb cur "" then [] else [cur] in
  match s with
  | EmptyString => flush
  | String c s' =>
      if Py.is_word c then tokens_from (cur +:+ String c "") s'
      else flush ++ tokens_from "" s'
  end.

Definition tokens (s : string) : list string := tokens_from "" s.

(** One of the words [ws] is a token of [s]. *)
Definition has_token (ws : list string) (s : string) : Prop :=
  exists w, In w ws /\ In w (tokens s).

(** A pattern matches somewhere in a text. *)
Definition matches (p : Re.pattern) (s : string) : Prop :=
  Re.search p s <> None.

(** A nonempty text made of characters of one class: what a group [(k+)]
    is meant to capture. *)
Fixpoint all_in (k : Re.cclass) (t : string) : bool :=
  match t with
  | EmptyString => true
  | String c t' => Re.in_class k c && all_in k t'
  end.

Definition run_of (k : Re.cclass) (t : string) : Prop :=
  t <> "" /\ all_in k t = true.

(** A repetition of [k] cannot go on into [s]. *)
Definition stops (k : Re.cclass) (s : string) : Prop :=
  match s with
  | EmptyString => True
  | String c _ => Re.in_class k c = false
  end.

(** The operation categories, in the priority order of the parser. *)
Inductive category :=
  | CatTransfer | CatBalance | CatStake | CatReport | CatUnknown.

Definition category_of (i : Prompt.intent) : category :=
  match i with
  | Prompt.Transfer _ _ _ => CatTransfer
  | Prompt.QueryBalance _ => CatBalance
  | Prompt.Stake _ _ => CatStake
  | Prompt.IncomeReport => CatReport
  | Prompt.Unknown _ => CatUnknown
  end.

Definition matchesb (s : string) (p : Re.pattern) : bool :=
  match Re.search p s with Some _ => true | None => false end.

(** The first category, in priority order, one of whose patterns matches
    the lowercased text [s] (for the report: whose keyword test holds). *)
Definition first_category (s : string) : category :=
  if existsb (matchesb s) Prompt.transfer_patterns then CatTransfer
  else if existsb (matchesb s) Prompt.balance_patterns then CatBalance
  else if existsb (matchesb s) Prompt.staking_patterns then CatStake
  else if Py.any_in ["report"; "income"; "earnings"; "revenue"] s
          && Py.any_in ["passive"; "total"; "generated"] s then CatReport
  else CatUnknown.

(** The number of groups of a pattern. *)
Fixpoint group_count (p : Re.pattern) : nat :=
  match p with
  | [] => 0
  | Re.Lit _ :: p' => group_count p'
  | Re.Rep _ _ captured :: p' =>
      ((if captured then 1 else 0) + group_count p')%nat
  end.

(** The captures [g] of a match of [p]: one per group, each a run of its
    group's class of at least the group's minimal length. *)
Fixpoint well_captured (p : Re.pattern) (g : Re.captures) : Prop :=
  match p with
  | [] => g = []
  | Re.Lit _ :: p' => well_captured p' g
  | Re.Rep _ _ false :: p' => well_captured p' g
  | Re.Rep k min true :: p' =>
      match g with
      | t :: g' =>
          all_in k t = true /\ min <= String.length t /\ well_captured p' g'
      | [] => False
      end
  end.

(** Calls of the stubs and of the report, as a client may issue them one
    after the other; a call that raises leaves the files as it left them
    and the client goes on. *)
Inductive stub_call :=
  | CallTransfer (from_wallet to_wallet : string) (amount : Q)
      (private_key network : string)
  | CallBalance (wallet_address network : string)
  | CallStake (now wallet : string) (amount : Q)
      (validator private_key network : string)
  | CallTokenAccount (wallet token_mint private_key network : string)
  | CallReport.

Definition run_call (hash : string -> Z) (str_float : Q -> string)
    (c : stub_call) (w : World) : World :=
  match c with
  | CallTransfer f t a k n =>
      snd (Handler.transfer_sol hash str_float f t a k n w)
  | CallBalance a n => snd (Handler.query_balance a n w)
  | CallStake now a q v k n =>
      snd (Income.stake_for_rewards hash str_float now a q v k n w)
  | CallTokenAccount a m k n =>
      snd (Income.create_token_account_for_fees hash a m k n w)
  | CallReport => snd (Income.get_income_report w)
  end.

Definition run_calls (hash : string -> Z) (str_float : Q -> string)
    (cs : list stub_call) (w : World) : World :=
  fold_left (fun w c => run_call hash str_float c w) cs w.

(** Every record of the ledger is a staking record. *)
Definition only_staking (f : ledger_file) : Prop :=
  match f with
  | Stored log =>
      Forall (fun t : gmap string value =>
                t !! "type" = Some (VStr "staking")) (transactions log)
  | Absent | Corrupt => True
  end.

(** The amount a transaction record counts for: a missing one counts as 0. *)
Definition amount_of (t : gmap string value) : Q :=
  match t !! "amount" with
  | Some (VNum q) => q
  | _ => 0%Q
  end.


(** What the ledger holds, as [log_income_transaction] reads it: an absent
    file reads as the empty log. *)
Definition empty_log : Log := {| transactions := []; total_income := 0 |}.

Definition current_log (f : ledger_file) : option Log :=
  match f with
  | Absent => Some empty_log
  | Stored log => Some log
  | Corrupt => None
  end.

(** A sequence of appends, each with the clock reading of its call. *)
Fixpoint log_all (entries : list (string * gmap string value)) : M unit :=
  match entries with
  | [] => ret tt
  | (now, transaction_data) :: rest =>
      let* _ := Income.log_income_transaction now transaction_data in
      log_all rest
  end.

(** ** Sample data *)

Definition sample_config : Config :=
  {| devVaultWallet := "5hSWosj58ki4A6hSfQrvteQU5QvyCWmhHn4AuqgaQzqr";
     feeStructure := {| passiveIncomePercentage := 10 |} |}.

(** A fresh installation: the configuration is there, the ledger is not. *)
Definition sample_world : World :=
  {| config_file := Some sample_config; data_dir := false;
     data_file := Absent |}.

(** Two records, the second without an amount. *)
Definition sample_entries : list (string * gmap string value) :=
  [ ("2024-01-01T10:00:00",
     {[ "type" := VStr "staking"; "amount" := VNum (3 # 2) ]});
    ("2024-01-02T11:30:00", {[ "type" := VStr "token_fees" ]}) ].

(** A client's session. *)
Definition sample_calls : list stub_call :=
  [ CallStake "2024-03-05T09:00:00" "wallet1" (5 # 2)
      "validator1" "key" "devnet";
    CallTokenAccount "wallet1" "mint1" "key" "devnet";
    CallTransfer "alice" "bob" 1 "key" "devnet";
    CallReport ].

(** Stand-ins for the two runtime functions. *)
Definition sample_hash (s : string) : Z := Z.of_nat (String.length s) - 7.
Definition sample_str_float (q : Q) : string :=
  Py.str_int (Qnum q) +:+ "/" +:+ Py.str_int (Zpos (Qden q)).

(** * Properties *)

(** ** Strings *)

Lemma startswith_spec (w s : string) :
  Py.startswith w s = true <-> exists post, s = w +:+ post.
Proof.
  revert s. induction w as [|a w IH]; intros s; simpl.
  - split; [intros _; exists s; reflexivity | reflexivity].
  - destruct s as [|b s].
    + split; [discriminate | intros [post H]; discriminate].
    + rewrite andb_true_iff, IH, Ascii.eqb_eq. split.
      * intros [-> [post ->]]. exists post. reflexivity.
      * intros [post H]. injection H as -> ->. split; [reflexivity | eauto].
Qed.

Lemma str_in_spec (w s : string) :
  Py.str_in w s = true <-> occurs_in w s.
Proof.
  unfold occurs_in. induction s as [|c s IH]; simpl.
  - rewrite orb_false_r, startswith_spec. split.
    + intros [post H]. exists "", post. exact H.
    + intros [pre [post H]]. destruct pre; [eauto | discriminate].
  - rewrite orb_true_iff, startswith_spec, IH. split.
    + intros [[post H] | [pre [post H]]].
      * exists "", post. exact H.
      * exists (String c pre), post. simpl. rewrite H. reflexivity.
    + intros [pre [post H]]. destruct pre as [|c' pre]; simpl in H.
      * left. eauto.
      * right. injection H as _ ->. eauto.
Qed.

Lemma any_in_spec (ws : list string) (s : string) :
  Py.any_in ws s = true <-> exists w, In w ws /\ occurs_in w s.
Proof.
  unfold Py.any_in. rewrite existsb_exists.
  split; intros [w [Hw H]]; exists w; split; auto; apply str_in_spec; auto.
Qed.

(** ** The matcher: one capture per group *)

Lemma rep_rest k rest : forall s min t g,
  Re.rep k min rest s = Some (t, g) -> exists s', rest s' = Some g.
Proof.
  induction s as [|c s IH]; intros min t g; simpl.
  - destruct min; [|discriminate].
    destruct (rest "") as [g'|] eqn:E; [|discriminate].
    intros H. injection H as _ <-. eauto.
  - assert (Hstop : match min with
                    | O => option_map (fun g => ("", g)) (rest (String c s))
                    | S _ => None
                    end = Some (t, g) -> exists s', rest s' = Some g).
    { destruct min; [|discriminate].
      destruct (rest (String c s)) as [g'|] eqn:E; [|discriminate].
      intros H. injection H as _ <-. eauto. }
    destruct (Re.in_class k c); [|exact Hstop].
    destruct (Re.rep k (Nat.pred min) rest s) as [[t' g']|] eqn:E;
      [|exact Hstop].
    intros H. injection H as _ <-. eapply IH, E.
Qed.

Lemma match_here_groups : forall p s g,
  Re.match_here p s = Some g -> length g = group_count p.
Proof.
  induction p as [|[c|k min captured] p IH]; intros s g; simpl.
  - intros H. injection H as <-. reflexivity.
  - destruct s as [|x s]; [discriminate|].
    destruct (Ascii.eqb x c); [apply IH | discriminate].
  - destruct (Re.rep k min (Re.match_here p) s) as [[t g']|] eqn:E;
      [|discriminate].
    apply rep_rest in E as [s' E]. apply IH in E.
    intros H. injection H as <-. destruct captured; simpl; lia.
Qed.

Lemma search_groups p : forall s g,
  Re.search p s = Some g -> length g = group_count p.
Proof.
  induction s as [|c s IH]; intros g; simpl;
    destruct (Re.match_here p _) as [g'|] eqn:E.
  - intros H. injection H as <-. eapply match_here_groups, E.
  - discriminate.
  - intros H. injection H as <-. eapply match_here_groups, E.
  - apply IH.
Qed.

Lemma float_raises_value_error s e :
  Py.float s = Raises e -> e = ValueError.
Proof.
  unfold Py.float.
  destruct (match Py.lower (Py.rstrip (Py.lstrip s)) with
            | EmptyString => _ | String _ _ => _ end);
    intros H; [discriminate | injection H as <-; reflexivity].
Qed.

(** ** The matcher on delimited text *)

Lemma append_cons (c : ascii) (a b : string) :
  String c a +:+ b = String c (a +:+ b).
Proof. reflexivity. Qed.

Lemma append_nil (b : string) : "" +:+ b = b.
Proof. reflexivity. Qed.

(** A greedy repetition takes the whole run when the rest of the pattern
    matches right after it. *)
Lemma rep_greedy k rest s g : forall t min,
  all_in k t = true -> min <= String.length t -> stops k s ->
  rest s = Some g ->
  Re.rep k min rest (t +:+ s) = Some (t, g).
Proof.
  induction t as [|c t IH]; intros min Hall Hmin Hstop Hrest;
    rewrite ?append_cons, ?append_nil; simpl in *.
  - assert (min = 0%nat) as -> by lia.
    destruct s as [|c s]; simpl in *; rewrite ?Hstop, Hrest; reflexivity.
  - apply andb_true_iff in Hall as [Hc Hall]. rewrite Hc.
    rewrite (IH (Nat.pred min)); auto. lia.
Qed.

Lemma match_here_rep k min captured p t s g :
  all_in k t = true -> min <= String.length t -> stops k s ->
  Re.match_here p s = Some g ->
  Re.match_here (Re.Rep k min captured :: p) (t +:+ s)
  = Some (if captured then t :: g else g).
Proof.
  intros Hall Hmin Hstop Hrest. simpl.
  rewrite (rep_greedy k _ s g t min); auto.
Qed.

Lemma match_here_lit w p s :
  Re.match_here (Re.lit w ++ p) (w +:+ s) = Re.match_here p s.
Proof.
  induction w as [|c w IH]; rewrite ?append_cons, ?append_nil; simpl;
    [reflexivity|].
  rewrite Ascii.eqb_refl. exact IH.
Qed.

Lemma search_here p s g :
  Re.match_here p s = Some g -> Re.search p s = Some g.
Proof. intros H. destruct s; simpl; rewrite H; reflexivity. Qed.

(** The classes of the patterns against the space. *)
Lemma word_not_space c :
  Re.in_class Re.Word c = true -> Re.in_class Re.Space c = false.
Proof.
  destruct c as [[] [] [] [] [] [] [] []]; vm_compute; congruence.
Qed.

Lemma digitdot_not_space c :
  Re.in_class Re.DigitDot c = true -> Re.in_class Re.Space c = false.
Proof.
  destruct c as [[] [] [] [] [] [] [] []]; vm_compute; congruence.
Qed.

Lemma run_stops_space k t s :
  (forall c, Re.in_class k c = true -> Re.in_class Re.Space c = false) ->
  run_of k t -> stops Re.Space (t +:+ s).
Proof.
  intros Hk [Hne Hall]. destruct t as [|c t]; [congruence|].
  rewrite append_cons. simpl in *.
  apply andb_true_iff in Hall as [Hc _]. auto.
Qed.

(** [lower] on the pieces of a prompt. *)
Lemma lower_append (a b : string) :
  Py.lower (a +:+ b) = Py.lower a +:+ Py.lower b.
Proof.
  induction a as [|c a IH]; rewrite ?append_cons, ?append_nil; simpl;
    [reflexivity | rewrite IH; reflexivity].
Qed.

Lemma lower_char_word c :
  Re.in_class Re.Word (Py.lower_char c) = Re.in_class Re.Word c.
Proof. destruct c as [[] [] [] [] [] [] [] []]; vm_compute; reflexivity. Qed.

Lemma lower_char_digitdot c :
  Re.in_class Re.DigitDot c = true -> Py.lower_char c = c.
Proof.
  destruct c as [[] [] [] [] [] [] [] []]; vm_compute; congruence.
Qed.

Lemma lower_word_run t : run_of Re.Word t -> run_of Re.Word (Py.lower t).
Proof.
  intros [Hne Hall]. split; [destruct t; [congruence | discriminate]|].
  clear Hne. induction t as [|c t IH]; cbn [all_in Py.lower] in *;
    [reflexivity|].
  apply andb_true_iff in Hall as [Hc Hall].
  rewrite lower_char_word, Hc. auto.
Qed.

Lemma lower_digitdot_run t : all_in Re.DigitDot t = true -> Py.lower t = t.
Proof.
  induction t as [|c t IH]; cbn [all_in Py.lower]; [reflexivity|].
  intros Hall. apply andb_true_iff in Hall as [Hc Hall].
  rewrite (lower_char_digitdot c Hc), IH; auto.
Qed.

Lemma run_length k t : run_of k t -> 1 <= String.length t.
Proof. intros [Hne _]. destruct t; [congruence | simpl; lia]. Qed.

Lemma append_empty_r (a : string) : a +:+ "" = a.
Proof.
  induction a as [|x a IH]; rewrite ?append_cons, ?append_nil;
    [reflexivity | rewrite IH; reflexivity].
Qed.

Lemma match_here_plus k p t s g :
  run_of k t -> stops k s -> Re.match_here p s = Some g ->
  Re.match_here (Re.plus k ++ p) (t +:+ s) = Some g.
Proof.
  intros Ht Hs Hp.
  apply (match_here_rep k 1 false p t s g); auto.
  - apply Ht.
  - eapply run_length, Ht.
Qed.

Lemma match_here_group k p t s g :
  run_of k t -> stops k s -> Re.match_here p s = Some g ->
  Re.match_here (Re.group_plus k ++ p) (t +:+ s) = Some (t :: g).
Proof.
  intros Ht Hs Hp.
  apply (match_here_rep k 1 true p t s g); auto.
  - apply Ht.
  - eapply run_length, Ht.
Qed.

Lemma match_here_group_end k t :
  run_of k t -> Re.match_here (Re.group_plus k) t = Some [t].
Proof.
  intros Ht. rewrite <- (append_empty_r t) at 1.
  apply (match_here_group k [] t "" []); [exact Ht | exact I | reflexivity].
Qed.

Lemma space_run : run_of Re.Space " ".
Proof. split; [discriminate | reflexivity]. Qed.

(** The shape shared by the first two transfer patterns, on the phrase
    they are written for. *)
Lemma verb_phrase_here (verb amount a b : string) :
  run_of Re.DigitDot amount -> run_of Re.Word a -> run_of Re.Word b ->
  Re.match_here
    (Re.lit verb ++ Prompt.ws ++ Prompt.num ++ Prompt.ws ++ Re.lit "sol"
       ++ Prompt.ws ++ Re.lit "from" ++ Prompt.ws ++ Prompt.word
       ++ Prompt.ws ++ Re.lit "to" ++ Prompt.ws ++ Prompt.word)
    (verb +:+ " " +:+ amount +:+ " sol from " +:+ a +:+ " to " +:+ b)
  = Some [amount; a; b].
Proof.
  intros Hamount Ha Hb. unfold Prompt.ws, Prompt.num, Prompt.word.
  change (" sol from " +:+ a +:+ " to " +:+ b)
    with (" " +:+ "sol" +:+ " " +:+ "from" +:+ " " +:+ a
            +:+ " " +:+ "to" +:+ " " +:+ b).
  rewrite match_here_lit.
  apply match_here_plus;
    [apply space_run | apply (run_stops_space _ _ _ digitdot_not_space Hamount) |].
  apply match_here_group; [exact Hamount | reflexivity |].
  apply match_here_plus; [apply space_run | reflexivity |].
  rewrite match_here_lit.
  apply match_here_plus; [apply space_run | reflexivity |].
  rewrite match_here_lit.
  apply match_here_plus;
    [apply space_run | apply (run_stops_space _ _ _ word_not_space Ha) |].
  apply match_here_group; [exact Ha | reflexivity |].
  apply match_here_plus; [apply space_run | reflexivity |].
  rewrite match_here_lit.
  apply match_here_plus;
    [apply space_run
    | rewrite <- (append_empty_r b);
      apply (run_stops_space _ _ _ word_not_space Hb) |].
  apply match_here_group_end, Hb.
Qed.

(** Where a pattern cannot start. *)
Lemma search_cons_miss p c s :
  Re.match_here p (String c s) = None ->
  Re.search p (String c s) = Re.search p s.
Proof. intros H. simpl. rewrite H. reflexivity. Qed.

Lemma search_skip_class k x w p :
  (forall c, Re.in_class k c = true -> Ascii.eqb c x = false) ->
  forall t s, all_in k t = true ->
  Re.search (Re.lit (String x w) ++ p) (t +:+ s)
  = Re.search (Re.lit (String x w) ++ p) s.
Proof.
  intros Hk. induction t as [|c t IH]; intros s Hall;
    rewrite ?append_cons, ?append_nil; [reflexivity|].
  cbn [all_in] in Hall. apply andb_true_iff in Hall as [Hc Hall].
  rewrite search_cons_miss; [apply IH, Hall|].
  simpl. rewrite (Hk c Hc). reflexivity.
Qed.

Lemma digitdot_not_t c :
  Re.in_class Re.DigitDot c = true -> Ascii.eqb c "t" = false.
Proof.
  destruct c as [[] [] [] [] [] [] [] []]; vm_compute; congruence.
Qed.

(** A word followed by a space does not start inside a run of word
    characters unless the pattern goes on after the run. *)
Lemma lit_then_space_here cap p s :
  stops Re.Word s ->
  Re.match_here (Re.Rep Re.Space 1 cap :: p) s = None ->
  forall w a, all_in Re.Word w = true -> all_in Re.Word a = true ->
  Re.match_here (Re.lit w ++ Re.Rep Re.Space 1 cap :: p) (a +:+ s) = None.
Proof.
  intros Hstop Hnone. induction w as [|x w IH]; intros a Hw Ha.
  - change (Re.lit "" ++ Re.Rep Re.Space 1 cap :: p)
      with (Re.Rep Re.Space 1 cap :: p).
    destruct a as [|c a]; [exact Hnone|].
    cbn [all_in] in Ha. apply andb_true_iff in Ha as [Hc _].
    rewrite append_cons. cbn [Re.match_here Re.rep].
    rewrite (word_not_space c Hc). reflexivity.
  - change (Re.lit (String x w) ++ Re.Rep Re.Space 1 cap :: p)
      with (Re.Lit x :: (Re.lit w ++ Re.Rep Re.Space 1 cap :: p)).
    cbn [all_in] in Hw. apply andb_true_iff in Hw as [Hx Hw].
    destruct a as [|c a]; rewrite ?append_cons, ?append_nil.
    + destruct s as [|c s]; [reflexivity|]. cbn [Re.match_here].
      destruct (Ascii.eqb_spec c x) as [->|_]; [|reflexivity].
      cbn [stops] in Hstop. congruence.
    + cbn [all_in] in Ha. apply andb_true_iff in Ha as [_ Ha].
      cbn [Re.match_here]. destruct (Ascii.eqb c x); [|reflexivity].
      apply IH; assumption.
Qed.

Lemma search_skip_word cap p s w :
  stops Re.Word s ->
  Re.match_here (Re.Rep Re.Space 1 cap :: p) s = None ->
  all_in Re.Word w = true ->
  forall a, all_in Re.Word a = true ->
  Re.search (Re.lit w ++ Re.Rep Re.Space 1 cap :: p) (a +:+ s)
  = Re.search (Re.lit w ++ Re.Rep Re.Space 1 cap :: p) s.
Proof.
  intros Hstop Hnone Hw. induction a as [|c a IH]; intros Ha;
    [reflexivity|].
  rewrite append_cons, search_cons_miss.
  - apply IH. cbn [all_in] in Ha. apply andb_true_iff in Ha. apply Ha.
  - rewrite <- append_cons. apply lit_then_space_here; assumption.
Qed.

(** ** The scans of the parser *)

Lemma scan_transfer_none ps s :
  Forall (fun p => ~ matches p s) ps -> Prompt.scan_transfer ps s = None.
Proof.
  induction 1 as [|p ps Hp _ IH]; simpl; [reflexivity|].
  destruct (Re.search p s) eqn:E; [|exact IH].
  exfalso. apply Hp. unfold matches. rewrite E. discriminate.
Qed.

Lemma scan_balance_none ps s :
  Forall (fun p => ~ matches p s) ps -> Prompt.scan_balance ps s = None.
Proof.
  induction 1 as [|p ps Hp _ IH]; simpl; [reflexivity|].
  destruct (Re.search p s) eqn:E; [|exact IH].
  exfalso. apply Hp. unfold matches. rewrite E. discriminate.
Qed.

Lemma scan_staking_none ps s :
  Forall (fun p => ~ matches p s) ps -> Prompt.scan_staking ps s = None.
Proof.
  induction 1 as [|p ps Hp _ IH]; simpl; [reflexivity|].
  destruct (Re.search p s) eqn:E; [|exact IH].
  exfalso. apply Hp. unfold matches. rewrite E. discriminate.
Qed.

(** What each loop yields, by whether one of its patterns matches. *)
Lemma scan_transfer_first s : forall ps,
  Forall (fun p => group_count p = 3%nat) ps ->
  match Prompt.scan_transfer ps s with
  | None => existsb (matchesb s) ps = false
  | Some (Returns i) =>
      existsb (matchesb s) ps = true /\ category_of i = CatTransfer
  | Some (Raises e) => existsb (matchesb s) ps = true /\ e = ValueError
  end.
Proof.
  induction 1 as [|p ps Hp _ IH]; simpl; [reflexivity|].
  unfold matchesb at 1 3 5.
  destruct (Re.search p s) as [g|] eqn:E; [|exact IH].
  apply search_groups in E. rewrite Hp in E.
  destruct g as [|a [|f [|t [|x g]]]]; try discriminate E.
  destruct (Py.float a) as [x|e] eqn:F; simpl; split; auto.
  eapply float_raises_value_error, F.
Qed.

Lemma scan_balance_first s : forall ps,
  Forall (fun p => group_count p = 1%nat) ps ->
  match Prompt.scan_balance ps s with
  | None => existsb (matchesb s) ps = false
  | Some (Returns i) =>
      existsb (matchesb s) ps = true /\ category_of i = CatBalance
  | Some (Raises e) => False
  end.
Proof.
  induction 1 as [|p ps Hp _ IH]; simpl; [reflexivity|].
  unfold matchesb at 1 3.
  destruct (Re.search p s) as [g|] eqn:E; [|exact IH].
  apply search_groups in E. rewrite Hp in E.
  destruct g as [|a g]; [discriminate E|]. simpl. auto.
Qed.

Lemma scan_staking_first s : forall ps,
  Forall (fun p => 1 <= group_count p) ps ->
  match Prompt.scan_staking ps s with
  | None => existsb (matchesb s) ps = false
  | Some (Returns i) =>
      existsb (matchesb s) ps = true /\ category_of i = CatStake
  | Some (Raises e) => existsb (matchesb s) ps = true /\ e = ValueError
  end.
Proof.
  induction 1 as [|p ps Hp _ IH]; simpl; [reflexivity|].
  unfold matchesb at 1 3 5.
  destruct (Re.search p s) as [g|] eqn:E; [|exact IH].
  apply search_groups in E. rewrite <- E in Hp.
  destruct g as [|a g]; [simpl in Hp; lia|].
  destruct (Py.float a) as [x|e] eqn:F; simpl; split; auto.
  eapply float_raises_value_error, F.
Qed.

(** X11.  The priority order of the parser.  A call that returns gives
    the intent of the first category that matches; a call raises only
    [ValueError], and only when that category is transfer or stake (on the
    numeric capture of its first matching pattern). *)
Theorem parse_priority (prompt : string) :
  match Prompt.parse_ai_prompt prompt with
  | Returns i => category_of i = first_category (Py.lower prompt)
  | Raises e =>
      e = ValueError
      /\ (first_category (Py.lower prompt) = CatTransfer
          \/ first_category (Py.lower prompt) = CatStake)
  end.
Proof.
  unfold Prompt.parse_ai_prompt, first_category.
  pose proof (scan_transfer_first (Py.lower prompt) Prompt.transfer_patterns)
    as Ht.
  pose proof (scan_balance_first (Py.lower prompt) Prompt.balance_patterns)
    as Hb.
  pose proof (scan_staking_first (Py.lower prompt) Prompt.staking_patterns)
    as Hs.
  destruct (Prompt.scan_transfer _ _) as [[i|e]|].
  { destruct Ht as [-> Hi]; [repeat constructor | exact Hi]. }
  { destruct Ht as [-> He]; [repeat constructor | auto]. }
  rewrite Ht by repeat constructor.
  destruct (Prompt.scan_balance _ _) as [[i|e]|].
  { destruct Hb as [-> Hi]; [repeat constructor | exact Hi]. }
  { destruct Hb. repeat constructor. }
  rewrite Hb by repeat constructor.
  destruct (Prompt.scan_staking _ _) as [[i|e]|].
  { destruct Hs as [-> Hi]; [repeat constructor | exact Hi]. }
  { destruct Hs as [-> He]; [repeat constructor | auto]. }
  rewrite Hs by repeat constructor.
  change ["report"; "income"; "earnings"; "revenue"] with Prompt.report_words.
  change ["passive"; "total"; "generated"] with Prompt.income_words.
  destruct (Py.any_in Prompt.report_words (Py.lower prompt)
            && Py.any_in Prompt.income_words (Py.lower prompt)); reflexivity.
Qed.

Lemma scan_transfer_hit p ps s amount from_wallet to_wallet :
  Re.search p s = Some [amount; from_wallet; to_wallet] ->
  Prompt.scan_transfer (p :: ps) s
  = Some match Py.float amount with
         | Returns x => Returns (Prompt.Transfer from_wallet to_wallet x)
         | Raises e => Raises e
         end.
Proof. intros H. cbn [Prompt.scan_transfer]. rewrite H. reflexivity. Qed.

Lemma scan_transfer_miss p ps s :
  Re.search p s = None ->
  Prompt.scan_transfer (p :: ps) s = Prompt.scan_transfer ps s.
Proof. intros H. cbn [Prompt.scan_transfer]. rewrite H. reflexivity. Qed.

(** The transfer pattern matches nowhere in the "send" phrase. *)
Lemma transfer_pattern_misses_send_phrase (amount a b : string) :
  run_of Re.DigitDot amount -> run_of Re.Word a -> run_of Re.Word b ->
  Re.search (nth 0 Prompt.transfer_patterns [])
    ("send" +:+ " " +:+ amount +:+ " sol from " +:+ a +:+ " to " +:+ b)
  = None.
Proof.
  intros [_ Hamount] [_ Ha] [_ Hb].
  cbn [nth Prompt.transfer_patterns]. unfold Prompt.ws at 1.
  set (q := Prompt.num ++ _).
  change (Re.lit "transfer" ++ Re.plus Re.Space ++ q)
    with (Re.lit "transfer" ++ Re.Rep Re.Space 1 false :: q).
  rewrite ?append_cons, ?append_nil.
  repeat (rewrite search_cons_miss by reflexivity).
  rewrite (search_skip_class Re.DigitDot _ _ _ digitdot_not_t) by exact Hamount.
  repeat (rewrite search_cons_miss by reflexivity).
  rewrite search_skip_word by (reflexivity || assumption).
  repeat (rewrite search_cons_miss by reflexivity).
  rewrite <- (append_empty_r b).
  rewrite search_skip_word by (reflexivity || assumption || exact I).
  reflexivity.
Qed.

(** X12.  The two phrasings [transfer|send <amount> sol from <A> to <B>]
    are read as (amount, from, to), whenever the amount is one that [float]
    takes. *)
Theorem transfer_send_phrase (verb amount a b : string) (x : Py.pyfloat) :
  verb = "transfer" \/ verb = "send" ->
  run_of Re.DigitDot amount -> run_of Re.Word a -> run_of Re.Word b ->
  Py.float amount = Returns x ->
  Prompt.parse_ai_prompt
    (verb +:+ " " +:+ amount +:+ " sol from " +:+ a +:+ " to " +:+ b)
  = Returns (Prompt.Transfer (Py.lower a) (Py.lower b) x).
Proof.
  intros Hverb Hamount Ha Hb Hx. unfold Prompt.parse_ai_prompt.
  rewrite !lower_append, (lower_digitdot_run amount) by apply Hamount.
  apply lower_word_run in Ha, Hb.
  change (Py.lower " ") with " ".
  change (Py.lower " sol from ") with " sol from ".
  change (Py.lower " to ") with " to ".
  destruct Hverb as [-> | ->].
  - change (Py.lower "transfer") with "transfer".
    unfold Prompt.transfer_patterns.
    rewrite (scan_transfer_hit _ _ _ amount (Py.lower a) (Py.lower b)).
    + rewrite Hx. reflexivity.
    + apply search_here, verb_phrase_here; assumption.
  - change (Py.lower "send") with "send".
    pose proof (transfer_pattern_misses_send_phrase
                  amount (Py.lower a) (Py.lower b) Hamount Ha Hb) as Hmiss.
    unfold Prompt.transfer_patterns in *. cbn [nth] in Hmiss.
    rewrite (scan_transfer_miss _ _ _ Hmiss).
    rewrite (scan_transfer_hit _ _ _ amount (Py.lower a) (Py.lower b)).
    + rewrite Hx. reflexivity.
    + apply search_here, verb_phrase_here; assumption.
Qed.

Lemma transfer_send_phrase_witness :
  Prompt.parse_ai_prompt
    ("send" +:+ " " +:+ "2.5" +:+ " sol from " +:+ "Alice" +:+ " to " +:+ "Bob_2")
  = Returns (Prompt.Transfer "alice" "bob_2" (Py.Finite (5 # 2))).
Proof.
  apply (transfer_send_phrase "send" "2.5" "Alice" "Bob_2" (Py.Finite (5 # 2)));
    try (split; [discriminate | reflexivity]).
  - right. reflexivity.
  - reflexivity.
Defined.

(** ** The prompts of the documentation *)

Example parse_transfer :
  Prompt.parse_ai_prompt "Transfer 0.5 SOL from ABC to XYZ"
  = Returns (Prompt.Transfer "abc" "xyz" (Py.Finite (1 # 2))).
Proof. vm_compute. reflexivity. Qed.

Example parse_send :
  Prompt.parse_ai_prompt "Please send 3 sol from w_1 to W2 today"
  = Returns (Prompt.Transfer "w_1" "w2" (Py.Finite 3)).
Proof. vm_compute. reflexivity. Qed.

Example parse_balance :
  Prompt.parse_ai_prompt "What is the balance of XYZ?"
  = Returns (Prompt.QueryBalance "xyz").
Proof. vm_compute. reflexivity. Qed.

Example parse_stake :
  Prompt.parse_ai_prompt "Stake 10 SOL to generate passive income"
  = Returns (Prompt.Stake (Py.Finite 10) None).
Proof. vm_compute. reflexivity. Qed.

Example parse_report :
  Prompt.parse_ai_prompt "Show passive income report"
  = Returns Prompt.IncomeReport.
Proof. vm_compute. reflexivity. Qed.

Example parse_empty :
  Prompt.parse_ai_prompt "" = Returns (Prompt.Unknown "").
Proof. vm_compute. reflexivity. Qed.

Example parse_spelled_amount :
  Prompt.parse_ai_prompt "transfer ten sol from a to b"
  = Returns (Prompt.Unknown "transfer ten sol from a to b").
Proof. vm_compute. reflexivity. Qed.

(** ** The claims on the parser *)

(** C1.  The "pay" phrasing [pay <B> <amount> sol from <A>] captures
    (to, amount, from), but the parser unpacks every match as
    (amount, from, to).  On "pay bob 5 sol from alice" the captures are
    bob, 5, alice, [float] is applied to "bob" and the call raises; with a
    numeric payee, "pay 7 5 sol from alice", the call returns the transfer
    of 7 from wallet "5" to wallet "alice" instead of the transfer of 5 from
    "alice" to "7". *)
Theorem pay_form_captures_unpacked_in_transfer_order :
  Re.search (nth 2 Prompt.transfer_patterns []) "pay bob 5 sol from alice"
    = Some ["bob"; "5"; "alice"]
  /\ Prompt.parse_ai_prompt "pay bob 5 sol from alice" = Raises ValueError
  /\ Prompt.parse_ai_prompt "pay 7 5 sol from alice"
     = Returns (Prompt.Transfer "5" "alice" (Py.Finite 7))
  /\ Prompt.parse_ai_prompt "pay 7 5 sol from alice"
     <> Returns (Prompt.Transfer "alice" "7" (Py.Finite 5)).
Proof.
  repeat split; try (vm_compute; reflexivity).
  vm_compute. discriminate.
Qed.

(** C2.  A numeric capture need only consist of digits and points, so it
    can be one that [float] rejects: "transfer 1.2.3 sol from a to b" matches
    the first transfer pattern with the amount "1.2.3", and the call raises
    [ValueError] instead of returning the unknown intent. *)
Theorem parse_raises_on_malformed_number :
  Re.search (nth 0 Prompt.transfer_patterns []) "transfer 1.2.3 sol from a to b"
    = Some ["1.2.3"; "a"; "b"]
  /\ Py.float "1.2.3" = Raises ValueError
  /\ Prompt.parse_ai_prompt "transfer 1.2.3 sol from a to b"
     = Raises ValueError.
Proof. repeat split; vm_compute; reflexivity. Qed.

(** C4.  On "Stake 1..5 SOL and show the total income report" no transfer
    and no balance pattern matches, the second staking pattern does, and so
    does the keyword test of the income report.  The first matching category
    is stake, but no stake intent is returned: the call raises [ValueError]
    on the captured amount "1..5". *)
Theorem first_category_intent_lost_to_float :
  let prompt := "Stake 1..5 SOL and show the total income report" in
  Forall (fun p => ~ matches p (Py.lower prompt)) Prompt.transfer_patterns
  /\ Forall (fun p => ~ matches p (Py.lower prompt)) Prompt.balance_patterns
  /\ Re.search (nth 1 Prompt.staking_patterns []) (Py.lower prompt)
     = Some ["1..5"]
  /\ Py.any_in Prompt.report_words (Py.lower prompt)
     && Py.any_in Prompt.income_words (Py.lower prompt) = true
  /\ Prompt.parse_ai_prompt prompt = Raises ValueError.
Proof.
  cbv zeta. repeat split; try (vm_compute; reflexivity);
    repeat constructor; intros H; apply H; vm_compute; reflexivity.
Qed.

(** C6.  The second and the fourth balance pattern put [.*] right before
    the group [(\w+)]: the greedy [.*] runs to the end of the line and gives
    back one character only, so the group captures the last word character
    and not a token.  On "What is my balance for XYZ" the wallet address is
    "z", which is none of the tokens what, is, my, balance, for, xyz. *)
Theorem broad_balance_pattern_captures_last_character :
  let prompt := "What is my balance for XYZ" in
  Prompt.parse_ai_prompt prompt = Returns (Prompt.QueryBalance "z")
  /\ tokens (Py.lower prompt) = ["what"; "is"; "my"; "balance"; "for"; "xyz"]
  /\ ~ In "z" (tokens (Py.lower prompt)).
Proof.
  cbv zeta. repeat split; try (vm_compute; reflexivity).
  vm_compute. intros H. repeat (destruct H as [H | H]; [discriminate H|]).
  exact H.
Qed.

(** C5, as stated, fails: the keywords are looked for as substrings, not
    as tokens.  No transfer, balance or staking pattern matches
    "unreported subtotals", whose tokens are unreported and subtotals, and
    it is an income report all the same. *)
Lemma keyword_inside_a_token_counts :
  Forall (fun p => ~ matches p (Py.lower "unreported subtotals"))
    Prompt.transfer_patterns
  /\ Forall (fun p => ~ matches p (Py.lower "unreported subtotals"))
       Prompt.balance_patterns
  /\ Forall (fun p => ~ matches p (Py.lower "unreported subtotals"))
       Prompt.staking_patterns
  /\ tokens (Py.lower "unreported subtotals") = ["unreported"; "subtotals"]
  /\ Prompt.parse_ai_prompt "unreported subtotals"
     = Returns Prompt.IncomeReport
  /\ ~ (has_token ["report"; "income"; "earnings"; "revenue"]
          (Py.lower "unreported subtotals")
        /\ has_token ["passive"; "total"; "generated"]
             (Py.lower "unreported subtotals")).
Proof.
  repeat split; try (vm_compute; reflexivity);
    try (repeat constructor; intros H; apply H; vm_compute; reflexivity).
  intros [(w & Hw & Ht) _]. vm_compute in Ht.
  destruct Ht as [<- | [<- | []]];
    repeat (destruct Hw as [Hw | Hw]; [discriminate Hw|]); exact Hw.
Qed.

(** C5, amended.  A prompt that no transfer, balance or staking pattern
    matches is an income report exactly when its lowercased text contains,
    as substrings, one of report, income, earnings, revenue and one of
    passive, total, generated, wherever they stand, inside a longer word or
    not; otherwise it is unknown. *)
Theorem income_report_by_keywords (prompt : string) :
  Forall (fun p => ~ matches p (Py.lower prompt)) Prompt.transfer_patterns ->
  Forall (fun p => ~ matches p (Py.lower prompt)) Prompt.balance_patterns ->
  Forall (fun p => ~ matches p (Py.lower prompt)) Prompt.staking_patterns ->
  let keyword_of (ws : list string) :=
    exists w, In w ws /\ occurs_in w (Py.lower prompt) in
  (Prompt.parse_ai_prompt prompt = Returns Prompt.IncomeReport
   <-> keyword_of ["report"; "income"; "earnings"; "revenue"]
       /\ keyword_of ["passive"; "total"; "generated"])
  /\ (Prompt.parse_ai_prompt prompt = Returns Prompt.IncomeReport
      \/ Prompt.parse_ai_prompt prompt = Returns (Prompt.Unknown prompt)).
Proof.
  intros Ht Hb Hs keyword_of. unfold Prompt.parse_ai_prompt.
  rewrite (scan_transfer_none _ _ Ht), (scan_balance_none _ _ Hb),
    (scan_staking_none _ _ Hs).
  subst keyword_of. cbv beta.
  rewrite <- !any_in_spec, <- andb_true_iff.
  change ["report"; "income"; "earnings"; "revenue"] with Prompt.report_words.
  change ["passive"; "total"; "generated"] with Prompt.income_words.
  destruct (Py.any_in Prompt.report_words (Py.lower prompt)
            && Py.any_in Prompt.income_words (Py.lower prompt)).
  - split; [split; reflexivity | left; reflexivity].
  - split; [split; discriminate | right; reflexivity].
Qed.

Lemma income_report_by_keywords_witness :
  Prompt.parse_ai_prompt "Earnings GENERATED so far"
  = Returns Prompt.IncomeReport
  <-> (exists w, In w ["report"; "income"; "earnings"; "revenue"]
                 /\ occurs_in w "earnings generated so far")
      /\ (exists w, In w ["passive"; "total"; "generated"]
                    /\ occurs_in w "earnings generated so far").
Proof.
  apply (income_report_by_keywords "Earnings GENERATED so far");
    repeat constructor; intros H; apply H; vm_compute; reflexivity.
Defined.

(** ** The income ledger *)



Lemma amount_of_stamped (now : string) (t : gmap string value) :
  amount_of (<["timestamp" := VStr now]> t) = amount_of t.
Proof. unfold amount_of. rewrite lookup_insert_ne; [reflexivity | discriminate]. Qed.

(** One successful append, read off the code: the record is stamped and
    put at the end, its amount is added to the total, the file is
    rewritten. *)
Lemma log_income_transaction_returns now t w log' w' :
  Income.log_income_transaction now t w = (Returns log', w') ->
  exists log,
    current_log (data_file w) = Some log
    /\ log' = {| transactions :=
                   transactions log ++ [<["timestamp" := VStr now]> t];
                 total_income := (total_income log + amount_of t)%Q |}
    /\ w' = {| config_file := config_file w; data_dir := true;
               data_file := Stored log' |}.
Proof.
  unfold Income.log_income_transaction, bind, mkdir_data, data_exists,
    load_data, dump_data, ret, Income.add_amount, raise; simpl.
  rewrite <- (amount_of_stamped now t). unfold amount_of.
  destruct (data_file w) as [| |log]; simpl; try discriminate;
    (destruct (<["timestamp" := VStr now]> t !! "amount") as [[q|s|]|];
     simpl; try discriminate;
     intros H; injection H as <- <-; eexists; repeat split; reflexivity).
Qed.

(** An append goes through whenever the ledger is readable and the amount,
    if there is one, is a number. *)
Lemma log_income_transaction_numeric now t w log :
  current_log (data_file w) = Some log ->
  (t !! "amount" = None \/ exists q, t !! "amount" = Some (VNum q)) ->
  let log' := {| transactions :=
                   transactions log ++ [<["timestamp" := VStr now]> t];
                 total_income := (total_income log + amount_of t)%Q |} in
  Income.log_income_transaction now t w
  = (Returns log',
     {| config_file := config_file w; data_dir := true;
        data_file := Stored log' |}).
Proof.
  intros Hlog Hnum.
  unfold Income.log_income_transaction, bind, mkdir_data, data_exists,
    load_data, dump_data, ret, Income.add_amount, raise, amount_of; simpl.
  rewrite lookup_insert_ne by discriminate.
  destruct (data_file w) as [| |log0]; simpl in Hlog |- *;
    [injection Hlog as <- | discriminate | injection Hlog as <-];
    destruct Hnum as [-> | [q ->]]; reflexivity.
Qed.

(** An append that raises has not written the ledger. *)
Lemma log_income_transaction_raises now t w e w' :
  Income.log_income_transaction now t w = (Raises e, w') ->
  data_file w' = data_file w.
Proof.
  unfold Income.log_income_transaction, bind, mkdir_data, data_exists,
    load_data, dump_data, ret, Income.add_amount, raise; simpl.
  destruct (data_file w) as [| |log]; simpl;
    try (intros H; inversion H; reflexivity);
    (destruct (<["timestamp" := VStr now]> t !! "amount") as [[q|s|]|];
     simpl; intros H; inversion H; reflexivity).
Qed.

Lemma staking_record_amount wallet amount dev_vault :
  Income.staking_record wallet amount dev_vault !! "amount"
  = Some (VNum amount).
Proof.
  unfold Income.staking_record.
  rewrite lookup_insert_ne by discriminate. apply lookup_insert_eq.
Qed.




(** The slice [l[-n:]]. *)
Lemma last_n_length {A} (n : nat) (l : list A) :
  length (last_n n l) = Nat.min n (length l).
Proof. unfold last_n. rewrite length_drop. lia. Qed.

Lemma last_n_suffix {A} (n : nat) (l : list A) :
  l = take (length l - n) l ++ last_n n l.
Proof. unfold last_n. symmetry. apply take_drop. Qed.

(** X13.  The report of a stored ledger: the count of its records and
    the last ten of them, oldest first. *)
Lemma report_of_stored_ledger (w : World) (log : Log) :
  data_file w = Stored log ->
  exists r recent,
    Income.get_income_report w = (Returns r, w)
    /\ Income.r_total_income r = total_income log
    /\ Income.r_transaction_count r = length (transactions log)
    /\ Income.r_recent_transactions r = Some recent
    /\ length recent = Nat.min 10 (length (transactions log))
    /\ exists older, transactions log = older ++ recent.
Proof.
  intros H. unfold Income.get_income_report, bind, data_exists, load_data, ret.
  rewrite H. cbn -[Nat.min last_n]. rewrite H.
  eexists. exists (last_n 10 (transactions log)).
  do 4 (split; [reflexivity|]).
  split; [apply last_n_length|].
  eexists. apply last_n_suffix.
Qed.

(** C7.  Without a ledger file the report says [transaction_count = 0] but
    has no [recent_transactions]: the empty sequence is returned under the
    key [transactions], and the [strategies] are missing as well. *)
Theorem report_without_ledger_lacks_recent_transactions
    (config : option Config) (dir : bool) :
  let w := {| config_file := config; data_dir := dir; data_file := Absent |} in
  exists r,
    Income.get_income_report w = (Returns r, w)
    /\ Income.r_transaction_count r = 0%nat
    /\ Income.r_recent_transactions r = None
    /\ Income.r_transactions r = Some []
    /\ Income.r_strategies r = None.
Proof. cbv zeta. eexists. repeat split. Qed.

(** ** The operation stubs *)

(** The token-account helper of the income module writes nothing either. *)
Lemma create_token_account_reads_only
    (hash : string -> Z) wallet token_mint private_key network w :
  snd (Income.create_token_account_for_fees hash
         wallet token_mint private_key network w) = w.
Proof.
  unfold Income.create_token_account_for_fees, bind, load_config, ret.
  destruct (config_file w); reflexivity.
Qed.

(** C8.  The transfer stub and the balance stub leave every file as it
    was.  The stake stub, given a configuration and a readable ledger,
    rewrites the ledger with exactly one more record, the staking record
    with the time of the call, and with the amount added to the total; when
    it raises, the ledger is as it was. *)
Theorem only_stake_writes_the_ledger
    (hash : string -> Z) (str_float : Q -> string) :
  (forall from_wallet to_wallet amount private_key network w,
     snd (Handler.transfer_sol hash str_float
            from_wallet to_wallet amount private_key network w) = w)
  /\ (forall wallet_address network w,
        snd (Handler.query_balance wallet_address network w) = w)
  /\ (forall now wallet amount validator private_key network w config log,
        config_file w = Some config ->
        current_log (data_file w) = Some log ->
        exists result,
          Income.stake_for_rewards hash str_float
            now wallet amount validator private_key network w
          = (Returns result,
             {| config_file := config_file w;
                data_dir := true;
                data_file := Stored {|
                  transactions :=
                    transactions log ++
                    [ <["timestamp" := VStr now]>
                        {[ "type" := VStr "staking";
                           "amount" := VNum amount;
                           "wallet" := VStr wallet;
                           "dev_vault" := VStr (devVaultWallet config);
                           "status" := VStr "initiated" ]} ];
                  total_income := (total_income log + amount)%Q |} |}))
  /\ (forall now wallet amount validator private_key network w e w',
        Income.stake_for_rewards hash str_float
          now wallet amount validator private_key network w = (Raises e, w') ->
        data_file w' = data_file w).
Proof.
  split; [|split; [|split]].
  - intros. unfold Handler.transfer_sol, bind, load_config, ret.
    destruct (config_file w); reflexivity.
  - intros. unfold Handler.query_balance, bind, load_config, ret.
    destruct (config_file w); reflexivity.
  - intros now wallet amount validator private_key network w config log Hc Hl.
    unfold Income.stake_for_rewards, bind at 1, load_config.
    rewrite Hc. unfold bind, ret.
    rewrite (log_income_transaction_numeric _ _ _ log Hl)
      by (right; eexists; apply staking_record_amount).
    unfold amount_of. rewrite staking_record_amount, ?Hc.
    eexists. reflexivity.
  - intros now wallet amount validator private_key network w e w'.
    unfold Income.stake_for_rewards, bind at 1, load_config.
    destruct (config_file w) as [config|].
    + unfold bind, ret.
      destruct (Income.log_income_transaction _ _ w) as [[log1|e1] w1] eqn:E.
      * discriminate.
      * intros H. injection H as _ <-.
        apply (log_income_transaction_raises _ _ _ _ _ E).
    + intros H. injection H as _ <-. reflexivity.
Qed.

Lemma only_stake_writes_the_ledger_witness :
  exists result,
    Income.stake_for_rewards sample_hash sample_str_float
      "2024-03-05T09:00:00" "wallet1" (5 # 2) "validator1" "key" "devnet"
      sample_world
    = (Returns result,
       {| config_file := Some sample_config;
          data_dir := true;
          data_file := Stored {|
            transactions :=
              [ <["timestamp" := VStr "2024-03-05T09:00:00"]>
                  {[ "type" := VStr "staking";
                     "amount" := VNum (5 # 2);
                     "wallet" := VStr "wallet1";
                     "dev_vault" := VStr (devVaultWallet sample_config);
                     "status" := VStr "initiated" ]} ];
            total_income := (0 + 5 # 2)%Q |} |}).
Proof.
  apply (proj1 (proj2 (proj2
           (only_stake_writes_the_ledger sample_hash sample_str_float)))
           "2024-03-05T09:00:00" "wallet1" (5 # 2) "validator1" "key" "devnet"
           sample_world sample_config empty_log);
    reflexivity.
Defined.

(** In exact arithmetic the fee is the amount times the percentage over
    100. *)
Theorem transfer_dev_vault_amount
    (hash : string -> Z) (str_float : Q -> string)
    (from_wallet to_wallet : string) (amount : Q)
    (private_key network : string) (w : World) (config : Config) :
  config_file w = Some config ->
  exists result,
    Handler.transfer_sol hash str_float
      from_wallet to_wallet amount private_key network w = (Returns result, w)
    /\ (Handler.tr_dev_vault_amount result
        == amount * passiveIncomePercentage (feeStructure config) / 100)%Q.
Proof.
  intros Hc. unfold Handler.transfer_sol, bind, load_config, ret.
  rewrite Hc. eexists. split; [reflexivity|]. simpl. field.
Qed.

Lemma transfer_dev_vault_amount_witness :
  exists result,
    Handler.transfer_sol sample_hash sample_str_float
      "alice" "bob" (1 # 2) "key" "devnet" sample_world
    = (Returns result, sample_world)
    /\ (Handler.tr_dev_vault_amount result == (1 # 2) * 10 / 100)%Q.
Proof.
  apply (transfer_dev_vault_amount sample_hash sample_str_float
           "alice" "bob" (1 # 2) "key" "devnet" sample_world sample_config).
  reflexivity.
Defined.




(** C10.  The signature of a transfer is computed from the concatenation
    [from_wallet + to_wallet + str(amount)] alone: two calls in one process
    whose concatenations agree return the same signature, whatever the
    split into wallets, the keys, the networks and the configurations. *)
Theorem transfer_signature_of_concatenation
    (hash : string -> Z) (str_float : Q -> string)
    (from1 to1 from2 to2 : string) (amount1 amount2 : Q)
    (key1 net1 key2 net2 : string) (w1 w2 : World) (c1 c2 : Config) :
  config_file w1 = Some c1 ->
  config_file w2 = Some c2 ->
  from1 +:+ to1 +:+ str_float amount1 = from2 +:+ to2 +:+ str_float amount2 ->
  exists r1 r2,
    Handler.transfer_sol hash str_float from1 to1 amount1 key1 net1 w1
      = (Returns r1, w1)
    /\ Handler.transfer_sol hash str_float from2 to2 amount2 key2 net2 w2
       = (Returns r2, w2)
    /\ Handler.tr_signature r1 = Handler.tr_signature r2
    /\ Handler.tr_signature r1
       = "SIMULATED_SIGNATURE_"
           +:+ Py.str_int (hash (from1 +:+ to1 +:+ str_float amount1)).
Proof.
  intros H1 H2 Heq. unfold Handler.transfer_sol, bind, load_config, ret.
  rewrite H1, H2. do 2 eexists. split; [reflexivity|]. split; [reflexivity|].
  simpl. rewrite Heq. split; reflexivity.
Qed.

Lemma transfer_signature_of_concatenation_witness :
  exists r1 r2,
    Handler.transfer_sol sample_hash sample_str_float
      "ab" "c" 2 "key" "devnet" sample_world = (Returns r1, sample_world)
    /\ Handler.transfer_sol sample_hash sample_str_float
         "a" "bc" 2 "key" "devnet" sample_world = (Returns r2, sample_world)
    /\ Handler.tr_signature r1 = Handler.tr_signature r2
    /\ Handler.tr_signature r1
       = "SIMULATED_SIGNATURE_"
           +:+ Py.str_int (sample_hash ("ab" +:+ "c" +:+ sample_str_float 2)).
Proof.
  apply (transfer_signature_of_concatenation sample_hash sample_str_float
           "ab" "c" "a" "bc" 2 2 "key" "devnet" "key" "devnet"
           sample_world sample_world sample_config sample_config);
    reflexivity.
Defined.

(** * More of the code *)

(** ** What a match captures *)

Lemma occurs_in_cons c t s : occurs_in t s -> occurs_in t (String c s).
Proof.
  intros (pre & post & ->). exists (String c pre), post. reflexivity.
Qed.

Lemma append_assoc (a b c : string) : (a +:+ b) +:+ c = a +:+ b +:+ c.
Proof.
  induction a as [|x a IH]; rewrite ?append_cons, ?append_nil;
    [reflexivity | rewrite IH; reflexivity].
Qed.

Lemma occurs_in_append a t s : occurs_in t s -> occurs_in t (a +:+ s).
Proof.
  intros (pre & post & ->). exists (a +:+ pre), post.
  rewrite append_assoc. reflexivity.
Qed.

Lemma occurs_in_prefix t s : occurs_in t (t +:+ s).
Proof. exists "", s. reflexivity. Qed.

Lemma rep_sound k rest : forall s min t g,
  Re.rep k min rest s = Some (t, g) ->
  exists s', s = t +:+ s' /\ rest s' = Some g
             /\ all_in k t = true /\ min <= String.length t.
Proof.
  assert (Hstop : forall s min t g,
            match min with
            | O => option_map (fun g => ("", g)) (rest s)
            | S _ => None
            end = Some (t, g) ->
            exists s', s = t +:+ s' /\ rest s' = Some g
                       /\ all_in k t = true /\ min <= String.length t).
  { intros s [|min] t g; [|discriminate].
    destruct (rest s) as [g'|] eqn:E; [|discriminate].
    intros H. injection H as <- <-. exists s. auto. }
  induction s as [|c s IH]; intros min t g; cbn [Re.rep]; [apply Hstop|].
  destruct (Re.in_class k c) eqn:Hc; [|apply Hstop].
  destruct (Re.rep k (Nat.pred min) rest s) as [[t' g']|] eqn:E;
    [|apply Hstop].
  intros H. injection H as <- <-.
  apply IH in E as (s' & -> & Hrest & Hall & Hmin).
  exists s'. rewrite append_cons. cbn [all_in String.length].
  rewrite Hc, Hall. repeat split; auto. lia.
Qed.

Lemma match_here_sound : forall p s g,
  Re.match_here p s = Some g ->
  well_captured p g /\ Forall (fun t => occurs_in t s) g.
Proof.
  induction p as [|[c|k min captured] p IH]; intros s g; cbn [Re.match_here].
  - intros H. injection H as <-. split; [reflexivity | constructor].
  - destruct s as [|x s]; [discriminate|].
    destruct (Ascii.eqb x c); [|discriminate].
    intros H. apply IH in H as [Hw Ho]. split; [exact Hw|].
    eapply Forall_impl; [exact Ho|]. intros t. apply occurs_in_cons.
  - destruct (Re.rep k min (Re.match_here p) s) as [[t g']|] eqn:E;
      [|discriminate].
    apply rep_sound in E as (s' & -> & Hrest & Hall & Hmin).
    apply IH in Hrest as [Hw Ho].
    assert (Ho' : Forall (fun u => occurs_in u (t +:+ s')) g').
    { eapply Forall_impl; [exact Ho|]. intros u. apply occurs_in_append. }
    intros H. injection H as <-. destruct captured; cbn [well_captured].
    + split; [auto|]. constructor; [apply occurs_in_prefix | exact Ho'].
    + split; assumption.
Qed.

Lemma search_sound p : forall s g,
  Re.search p s = Some g ->
  well_captured p g /\ Forall (fun t => occurs_in t s) g.
Proof.
  induction s as [|c s IH]; intros g; cbn [Re.search];
    destruct (Re.match_here p _) as [g'|] eqn:E.
  - intros H. injection H as <-. eapply match_here_sound, E.
  - discriminate.
  - intros H. injection H as <-. eapply match_here_sound, E.
  - intros H. apply IH in H as [Hw Ho]. split; [exact Hw|].
    eapply Forall_impl; [exact Ho|]. intros t. apply occurs_in_cons.
Qed.

Lemma run_of_intro k t :
  all_in k t = true -> 1 <= String.length t -> run_of k t.
Proof.
  intros Hall Hlen. split; [|exact Hall].
  destruct t; [simpl in Hlen; lia | discriminate].
Qed.

(** A loop that returned did so on a match of one of its patterns. *)
Lemma scan_transfer_sound s : forall ps r,
  Prompt.scan_transfer ps s = Some r ->
  exists p amount from_wallet to_wallet,
    In p ps /\ Re.search p s = Some [amount; from_wallet; to_wallet]
    /\ r = match Py.float amount with
           | Returns x => Returns (Prompt.Transfer from_wallet to_wallet x)
           | Raises e => Raises e
           end.
Proof.
  induction ps as [|p ps IH]; intros r; cbn [Prompt.scan_transfer];
    [discriminate|].
  assert (Hnext : Prompt.scan_transfer ps s = Some r ->
                  exists p' amount from_wallet to_wallet,
                    In p' (p :: ps)
                    /\ Re.search p' s = Some [amount; from_wallet; to_wallet]
                    /\ r = match Py.float amount with
                           | Returns x =>
                               Returns (Prompt.Transfer from_wallet to_wallet x)
                           | Raises e => Raises e
                           end).
  { intros H. apply IH in H as (p' & a & f & t & Hin & Hs & Hr).
    exists p', a, f, t. split; [right; exact Hin | auto]. }
  destruct (Re.search p s) as [[|a [|f [|t [|x g]]]]|] eqn:E; try exact Hnext.
  intros H. injection H as <-. exists p, a, f, t.
  split; [left; reflexivity | auto].
Qed.

Lemma scan_balance_sound s : forall ps i,
  Prompt.scan_balance ps s = Some (Returns i) ->
  exists p wallet g,
    In p ps /\ Re.search p s = Some (wallet :: g)
    /\ i = Prompt.QueryBalance wallet.
Proof.
  induction ps as [|p ps IH]; intros i; cbn [Prompt.scan_balance];
    [discriminate|].
  destruct (Re.search p s) as [[|w g]|] eqn:E.
  - discriminate.
  - intros H. injection H as <-. exists p, w, g.
    split; [left; reflexivity | auto].
  - intros H. apply IH in H as (p' & w & g & Hin & Hs & Hi).
    exists p', w, g. split; [right; exact Hin | auto].
Qed.

Lemma scan_staking_sound s : forall ps r,
  Prompt.scan_staking ps s = Some r ->
  exists p amount more,
    In p ps /\ Re.search p s = Some (amount :: more)
    /\ r = match Py.float amount with
           | Returns x => Returns (Prompt.Stake x (head more))
           | Raises e => Raises e
           end.
Proof.
  induction ps as [|p ps IH]; intros r; cbn [Prompt.scan_staking];
    [discriminate|].
  assert (Hnext : Prompt.scan_staking ps s = Some r ->
                  exists p' amount more,
                    In p' (p :: ps) /\ Re.search p' s = Some (amount :: more)
                    /\ r = match Py.float amount with
                           | Returns x => Returns (Prompt.Stake x (head more))
                           | Raises e => Raises e
                           end).
  { intros H. apply IH in H as (p' & a & more & Hin & Hs & Hr).
    exists p', a, more. split; [right; exact Hin | auto]. }
  destruct (Re.search p s) as [[|a more]|] eqn:E; try exact Hnext.
  intros H. injection H as <-. exists p, a, more.
  split; [left; reflexivity|]. split; [exact E|].
  destruct more; reflexivity.
Qed.

(** X1.  Every text an intent carries comes out of the prompt.  The wallet
    of a balance query, the wallet of a stake and the destination of a
    transfer are nonempty runs of word characters of the lowercased prompt;
    the source of a transfer is such a run or, through the "pay" pattern,
    a run of digits and points; the unknown intent carries the prompt as it
    was given. *)
Theorem intent_parameters_from_prompt (prompt : string) (i : Prompt.intent) :
  Prompt.parse_ai_prompt prompt = Returns i ->
  match i with
  | Prompt.Transfer from_wallet to_wallet _ =>
      (run_of Re.Word from_wallet \/ run_of Re.DigitDot from_wallet)
      /\ occurs_in from_wallet (Py.lower prompt)
      /\ run_of Re.Word to_wallet
      /\ occurs_in to_wallet (Py.lower prompt)
  | Prompt.QueryBalance wallet | Prompt.Stake _ (Some wallet) =>
      run_of Re.Word wallet /\ occurs_in wallet (Py.lower prompt)
  | Prompt.Stake _ None | Prompt.IncomeReport => True
  | Prompt.Unknown original_prompt => original_prompt = prompt
  end.
Proof.
  unfold Prompt.parse_ai_prompt.
  destruct (Prompt.scan_transfer _ _) as [r|] eqn:Et.
  { apply scan_transfer_sound in Et as (p & a & f & t & Hin & Hs & ->).
    destruct (Py.float a); [|discriminate]. intros H. injection H as <-.
    apply search_sound in Hs as [Hw Ho].
    apply Forall_cons in Ho as [_ Ho]. apply Forall_cons in Ho as [Hf Ho].
    apply Forall_cons in Ho as [Ht _].
    destruct Hin as [<- | [<- | [<- | []]]]; cbn in Hw;
      destruct Hw as (_ & _ & Hf1 & Hf2 & Ht1 & Ht2 & _);
      (split;
       [ (left; apply run_of_intro; assumption)
         || (right; apply run_of_intro; assumption)
       | split; [exact Hf | split; [apply run_of_intro; assumption | exact Ht]]
       ]). }
  destruct (Prompt.scan_balance _ _) as [[j|e]|] eqn:Eb.
  { apply scan_balance_sound in Eb as (p & w & g & Hin & Hs & ->).
    intros H. injection H as <-.
    apply search_sound in Hs as [Hw Ho]. apply Forall_cons in Ho as [Ho _].
    destruct Hin as [<- | [<- | [<- | [<- | []]]]]; cbn in Hw;
      destruct Hw as (H1 & H2 & _); split; auto using run_of_intro. }
  { discriminate. }
  destruct (Prompt.scan_staking _ _) as [r|] eqn:Es.
  { apply scan_staking_sound in Es as (p & a & more & Hin & Hs & ->).
    destruct (Py.float a); [|discriminate]. intros H. injection H as <-.
    apply search_sound in Hs as [Hw Ho]. apply Forall_cons in Ho as [_ Ho].
    destruct more as [|w more]; [exact I|]. cbn [head].
    apply Forall_cons in Ho as [Ho _].
    destruct Hin as [<- | [<- | [<- | [<- | []]]]]; cbn in Hw;
      try (destruct Hw as (_ & _ & Hw); discriminate Hw).
    destruct Hw as (_ & _ & H1 & H2 & _). split; auto using run_of_intro. }
  destruct (_ && _); intros H; injection H as <-; [exact I | reflexivity].
Qed.

Lemma intent_parameters_from_prompt_witness :
  (run_of Re.Word "5" \/ run_of Re.DigitDot "5")
  /\ occurs_in "5" (Py.lower "Pay 7 5 SOL from Alice")
  /\ run_of Re.Word "alice"
  /\ occurs_in "alice" (Py.lower "Pay 7 5 SOL from Alice").
Proof.
  apply (intent_parameters_from_prompt "Pay 7 5 SOL from Alice"
           (Prompt.Transfer "5" "alice" (Py.Finite 7))).
  vm_compute. reflexivity.
Defined.

(** ** More on the ledger *)

Lemma append_failure_shape now t w e w' :
  Income.log_income_transaction now t w = (Raises e, w') ->
  w' = {| config_file := config_file w; data_dir := true;
          data_file := data_file w |}.
Proof.
  unfold Income.log_income_transaction, bind, mkdir_data, data_exists,
    load_data, dump_data, ret, Income.add_amount, raise; simpl.
  destruct (data_file w) as [| |log]; simpl;
    try (intros H; inversion H; reflexivity);
    (destruct (<["timestamp" := VStr now]> t !! "amount") as [[q|s|]|];
     simpl; intros H; inversion H; reflexivity).
Qed.



Lemma log_all_records (entries : list (string * gmap string value)) :
  forall (w w' : World) (log : Log),
    current_log (data_file w) = Some log ->
    log_all entries w = (Returns tt, w') ->
    exists log',
      current_log (data_file w') = Some log'
      /\ transactions log'
         = transactions log
             ++ map (fun e => <["timestamp" := VStr (fst e)]> (snd e)) entries.
Proof.
  induction entries as [|[now t] entries IH]; intros w w' log Hlog Hrun.
  - simpl in Hrun. injection Hrun as <-. exists log.
    split; [exact Hlog|]. simpl. rewrite app_nil_r. reflexivity.
  - simpl in Hrun. unfold bind in Hrun.
    destruct (Income.log_income_transaction now t w) as [[log1|e] w1] eqn:E;
      [|discriminate].
    apply log_income_transaction_returns in E as (log0 & Hlog0 & Hlog1 & Hw1).
    rewrite Hlog in Hlog0. injection Hlog0 as <-.
    destruct (IH w1 w' log1) as (log' & Hcur & Htx);
      [rewrite Hw1; reflexivity | exact Hrun |].
    exists log'. split; [exact Hcur|].
    rewrite Htx, Hlog1. simpl. rewrite <- app_assoc. reflexivity.
Qed.

(** X4.  Appends only add at the end: after any sequence of successful
    appends the file stores the records it held before, unchanged and in
    their order, followed by the new records in the order of the calls,
    each with the timestamp of its call. *)
Theorem appends_keep_earlier_records
    (entries : list (string * gmap string value))
    (w w' : World) (log : Log) :
  current_log (data_file w) = Some log ->
  log_all entries w = (Returns tt, w') ->
  exists log',
    current_log (data_file w') = Some log'
    /\ transactions log'
       = transactions log
           ++ map (fun e => <["timestamp" := VStr (fst e)]> (snd e)) entries.
Proof. apply log_all_records. Qed.

Lemma appends_keep_earlier_records_witness :
  exists log',
    current_log (data_file (snd (log_all sample_entries sample_world)))
    = Some log'
    /\ transactions log'
       = transactions empty_log
           ++ map (fun e => <["timestamp" := VStr (fst e)]> (snd e))
                sample_entries.
Proof.
  apply (appends_keep_earlier_records sample_entries sample_world).
  - reflexivity.
  - vm_compute. reflexivity.
Defined.

Lemma count_type_cons cond t ts :
  Income.count_type cond (t :: ts)
  = ((if cond (t !! "type") then 1 else 0) + Income.count_type cond ts)%nat.
Proof.
  unfold Income.count_type. rewrite filter_cons.
  destruct (decide (cond (t !! "type") = true)) as [H|H].
  - rewrite H. reflexivity.
  - destruct (cond (t !! "type")); [congruence | reflexivity].
Qed.

Lemma type_is_exclusive v :
  Income.type_is "staking" v && Income.type_is "token_fees" v = false.
Proof.
  destruct v as [[q|s|]|]; try reflexivity. cbn [Income.type_is].
  destruct (String.eqb_spec s "staking") as [->|]; reflexivity.
Qed.

Lemma strategies_partition ts :
  (Income.count_type (Income.type_is "staking") ts
   + Income.count_type (Income.type_is "token_fees") ts
   + Income.count_type
       (fun v => negb (Income.type_is "staking" v
                       || Income.type_is "token_fees" v)) ts
   = length ts)%nat.
Proof.
  induction ts as [|t ts IH]; [reflexivity|].
  rewrite !count_type_cons. cbn [length].
  pose proof (type_is_exclusive (t !! "type")) as Hx.
  destruct (Income.type_is "staking" (t !! "type")),
    (Income.type_is "token_fees" (t !! "type"));
    cbn [negb orb andb] in *; try discriminate; lia.
Qed.

(** X5.  In the report of a stored ledger every record is counted under
    exactly one strategy: [staking], [token_fees] and [other] add up to
    [transaction_count]. *)
Theorem report_strategies_add_up (w : World) (log : Log) :
  data_file w = Stored log ->
  exists r st,
    Income.get_income_report w = (Returns r, w)
    /\ Income.r_strategies r = Some st
    /\ Income.r_transaction_count r = length (transactions log)
    /\ (Income.staking st + Income.token_fees st + Income.other st
        = Income.r_transaction_count r)%nat.
Proof.
  intros H. unfold Income.get_income_report, bind, data_exists, load_data, ret.
  rewrite H. cbn -[Nat.min last_n]. rewrite H.
  do 2 eexists. split; [reflexivity|]. split; [reflexivity|].
  split; [reflexivity|].
  cbn [Income.staking Income.token_fees Income.other
       Income.r_transaction_count].
  apply strategies_partition.
Qed.

Lemma report_strategies_add_up_witness :
  let w := snd (log_all sample_entries sample_world) in
  let log := {| transactions :=
                  map (fun e => <["timestamp" := VStr (fst e)]> (snd e))
                    sample_entries;
                total_income := (0 + (3 # 2) + 0)%Q |} in
  exists r st,
    Income.get_income_report w = (Returns r, w)
    /\ Income.r_strategies r = Some st
    /\ Income.r_transaction_count r = length (transactions log)
    /\ (Income.staking st + Income.token_fees st + Income.other st
        = Income.r_transaction_count r)%nat.
Proof.
  apply (report_strategies_add_up
           (snd (log_all sample_entries sample_world))).
  vm_compute. reflexivity.
Defined.



Lemma report_reads_only_here (w : World) :
  snd (Income.get_income_report w) = w
  /\ (data_file w <> Corrupt ->
      exists r, fst (Income.get_income_report w) = Returns r).
Proof.
  unfold Income.get_income_report, bind, data_exists, load_data, ret.
  destruct (data_file w) as [| |log] eqn:E; cbn -[Nat.min last_n];
    rewrite ?E; cbn -[Nat.min last_n]; split; eauto; congruence.
Qed.

(** X8.  Every stub reads the configuration first: without the file each
    of the four raises [FileNotFoundError] and nothing is written, not even
    the data directory by the stake stub. *)
Theorem stubs_need_configuration
    (hash : string -> Z) (str_float : Q -> string) (w : World)
    (now a b key net : string) (amount : Q) :
  config_file w = None ->
  Handler.transfer_sol hash str_float a b amount key net w
    = (Raises FileNotFoundError, w)
  /\ Handler.query_balance a net w = (Raises FileNotFoundError, w)
  /\ Income.stake_for_rewards hash str_float now a amount b key net w
     = (Raises FileNotFoundError, w)
  /\ Income.create_token_account_for_fees hash a b key net w
     = (Raises FileNotFoundError, w).
Proof.
  intros H.
  unfold Handler.transfer_sol, Handler.query_balance,
    Income.stake_for_rewards, Income.create_token_account_for_fees,
    bind, load_config.
  rewrite H. repeat split.
Qed.

Lemma stubs_need_configuration_witness :
  let w := {| config_file := None; data_dir := false; data_file := Absent |} in
  Handler.transfer_sol sample_hash sample_str_float
    "alice" "bob" 1 "key" "devnet" w = (Raises FileNotFoundError, w)
  /\ Handler.query_balance "alice" "devnet" w = (Raises FileNotFoundError, w)
  /\ Income.stake_for_rewards sample_hash sample_str_float
       "2024-01-01T10:00:00" "alice" 1 "bob" "key" "devnet" w
     = (Raises FileNotFoundError, w)
  /\ Income.create_token_account_for_fees sample_hash
       "alice" "bob" "key" "devnet" w = (Raises FileNotFoundError, w).
Proof.
  apply (stubs_need_configuration sample_hash sample_str_float
           {| config_file := None; data_dir := false; data_file := Absent |}).
  reflexivity.
Defined.

(** ** Sequences of calls *)

Lemma stake_effect (hash : string -> Z) (str_float : Q -> string)
    now wallet amount validator private_key network w :
  let w' := snd (Income.stake_for_rewards hash str_float
                   now wallet amount validator private_key network w) in
  config_file w' = config_file w
  /\ (data_file w' = data_file w
      \/ exists config log,
           config_file w = Some config
           /\ current_log (data_file w) = Some log
           /\ data_file w'
              = Stored {|
                  transactions :=
                    transactions log ++
                    [<["timestamp" := VStr now]>
                       (Income.staking_record wallet amount
                          (devVaultWallet config))];
                  total_income := (total_income log + amount)%Q |}).
Proof.
  cbv zeta. unfold Income.stake_for_rewards, bind, load_config, ret.
  cbv beta. destruct (config_file w) as [config|] eqn:Hc; cbv beta iota;
    [|split; [exact Hc | left; reflexivity]].
  destruct (Income.log_income_transaction now _ w) as [[log1|e] w1] eqn:E.
  - apply log_income_transaction_returns in E as (log & Hlog & -> & ->).
    cbn [snd config_file data_file]. split; [exact Hc|]. right.
    exists config, log. split; [reflexivity|]. split; [exact Hlog|].
    unfold amount_of. rewrite staking_record_amount. reflexivity.
  - cbn [snd]. pose proof (log_income_transaction_raises _ _ _ _ _ E) as Hd.
    apply append_failure_shape in E. subst w1.
    split; [exact Hc | left; exact Hd].
Qed.

Lemma staking_record_type now wallet amount dev_vault :
  (<["timestamp" := VStr now]>
     (Income.staking_record wallet amount dev_vault)) !! "type"
  = Some (VStr "staking").
Proof.
  rewrite lookup_insert_ne by discriminate.
  unfold Income.staking_record. apply lookup_insert_eq.
Qed.

Lemma run_call_only_staking hash str_float c w :
  only_staking (data_file w) ->
  only_staking (data_file (run_call hash str_float c w)).
Proof.
  intros Hinv. destruct c as [f t a k n|a n|now a q v k n|a m k n|];
    cbn [run_call].
  - unfold Handler.transfer_sol, bind, load_config, ret.
    destruct (config_file w); exact Hinv.
  - unfold Handler.query_balance, bind, load_config, ret.
    destruct (config_file w); exact Hinv.
  - destruct (stake_effect hash str_float now a q v k n w)
      as [_ [-> | (config & log & _ & Hlog & ->)]]; [exact Hinv|].
    cbn [only_staking transactions]. apply Forall_app. split.
    + destruct (data_file w) as [| |log0]; cbn in Hlog;
        [injection Hlog as <-; constructor | discriminate
        | injection Hlog as <-; exact Hinv].
    + constructor; [apply staking_record_type | constructor].
  - rewrite create_token_account_reads_only. exact Hinv.
  - rewrite (proj1 (report_reads_only_here w)). exact Hinv.
Qed.

Lemma count_all_staking (ts : list (gmap string value)) :
  Forall (fun t : gmap string value =>
            t !! "type" = Some (VStr "staking")) ts ->
  Income.count_type (Income.type_is "staking") ts = length ts
  /\ Income.count_type (Income.type_is "token_fees") ts = 0%nat
  /\ Income.count_type
       (fun v => negb (Income.type_is "staking" v
                       || Income.type_is "token_fees" v)) ts = 0%nat.
Proof.
  induction 1 as [|t ts Ht _ (IH1 & IH2 & IH3)]; [repeat split|].
  rewrite !count_type_cons, Ht, IH1, IH2, IH3. repeat split.
Qed.

(** X10.  The stubs write staking records only.  Starting without a
    ledger, after any sequence of transfers, balance queries, stakes,
    token-account creations and reports, in any order and whether they
    succeed or raise, a report counts every record under [staking] and
    none under [token_fees] or [other]: creating a token account for fees
    logs nothing. *)
Theorem stubs_log_staking_only
    (hash : string -> Z) (str_float : Q -> string)
    (cs : list stub_call) (w : World) (r : Income.Report)
    (st : Income.Strategies) :
  data_file w = Absent ->
  let w' := run_calls hash str_float cs w in
  fst (Income.get_income_report w') = Returns r ->
  Income.r_strategies r = Some st ->
  Income.staking st = Income.r_transaction_count r
  /\ Income.token_fees st = 0%nat
  /\ Income.other st = 0%nat.
Proof.
  intros Hstart w'.
  assert (Hinv : only_staking (data_file w')).
  { subst w'. unfold run_calls.
    assert (H0 : only_staking (data_file w)) by (rewrite Hstart; exact I).
    clear Hstart. revert w H0.
    induction cs as [|c cs IH]; intros w H0; cbn [fold_left]; [exact H0|].
    apply IH, run_call_only_staking, H0. }
  clearbody w'. clear Hstart.
  unfold Income.get_income_report, bind, data_exists, load_data, ret.
  destruct (data_file w') as [| |log] eqn:E; cbn -[Nat.min last_n];
    rewrite ?E; cbn -[Nat.min last_n].
  - intros H. injection H as <-. discriminate.
  - discriminate.
  - intros H. injection H as <-.
    cbn [Income.r_strategies Income.r_transaction_count].
    intros H. injection H as <-.
    cbn [Income.staking Income.token_fees Income.other].
    apply count_all_staking, Hinv.
Qed.

Lemma stubs_log_staking_only_witness :
  let w' :=
    run_calls sample_hash sample_str_float sample_calls sample_world in
  exists r st,
    fst (Income.get_income_report w') = Returns r
    /\ Income.r_strategies r = Some st
    /\ Income.staking st = Income.r_transaction_count r
    /\ Income.token_fees st = 0%nat
    /\ Income.other st = 0%nat.
Proof.
  cbv zeta. unfold sample_calls.
  match goal with
  | |- exists r st, fst (Income.get_income_report ?w) = _ /\ _ =>
      let v := eval vm_compute in (fst (Income.get_income_report w)) in
      match v with
      | Returns ?r =>
          let s := eval vm_compute in (Income.r_strategies r) in
          match s with Some ?st => exists r, st end
      end
  end.
  split; [vm_compute; reflexivity|]. split; [vm_compute; reflexivity|].
  eapply (stubs_log_staking_only sample_hash sample_str_float
            sample_calls sample_world);
    vm_compute; reflexivity.
Defined.

Lemma report_of_stored_ledger_witness :
  let w := snd (log_all sample_entries sample_world) in
  let log := {| transactions :=
                  map (fun e => <["timestamp" := VStr (fst e)]> (snd e))
                    sample_entries;
                total_income := (0 + (3 # 2) + 0)%Q |} in
  exists r recent,
    Income.get_income_report w = (Returns r, w)
    /\ Income.r_total_income r = total_income log
    /\ Income.r_transaction_count r = length (transactions log)
    /\ Income.r_recent_transactions r = Some recent
    /\ length recent = Nat.min 10 (length (transactions log))
    /\ exists older, transactions log = older ++ recent.
Proof.
  apply (report_of_stored_ledger (snd (log_all sample_entries sample_world))).
  vm_compute. reflexivity.
Defined.

(** ** Requests *)

Lemma transfer_sol_world hash str_float f t a k n w :
  snd (Handler.transfer_sol hash str_float f t a k n w) = w.
Proof.
  unfold Handler.transfer_sol, bind, load_config, ret.
  destruct (config_file w); reflexivity.
Qed.

Lemma query_balance_world a n w : snd (Handler.query_balance a n w) = w.
Proof.
  unfold Handler.query_balance, bind, load_config, ret.
  destruct (config_file w); reflexivity.
Qed.

(** X14.  A request reads the configuration before it looks at the
    prompt: without the file every request raises [FileNotFoundError] and
    writes nothing, whatever the prompt and the credentials, also for a
    prompt on which the parser would raise. *)
Theorem request_needs_configuration
    (hash : string -> Z) (str_float : Q -> string)
    (now prompt : string) (credentials : option (gmap string string))
    (w : World) :
  config_file w = None ->
  Request.process_ai_request hash str_float now prompt credentials w
  = (Raises FileNotFoundError, w).
Proof.
  intros H. unfold Request.process_ai_request, bind at 1, load_config.
  rewrite H. reflexivity.
Qed.

Lemma request_needs_configuration_witness :
  let w := {| config_file := None; data_dir := false; data_file := Absent |} in
  Request.process_ai_request sample_hash sample_str_float
    "2024-01-01T10:00:00" "transfer 1.2.3 sol from a to b" None w
  = (Raises FileNotFoundError, w).
Proof.
  apply (request_needs_configuration sample_hash sample_str_float).
  reflexivity.
Defined.

(** X15.  Only a stake writes.  A request leaves the configuration as it
    was, and the ledger file too unless the prompt parses to a stake
    intent; then the ledger is as it was (the stake raised) or holds
    exactly one record more, a staking record, after the records it
    had. *)
Theorem request_writes_only_on_stake
    (hash : string -> Z) (str_float : Q -> string)
    (now prompt : string) (credentials : option (gmap string string))
    (w : World) :
  let w' := snd (Request.process_ai_request hash str_float
                   now prompt credentials w) in
  config_file w' = config_file w
  /\ (data_file w' = data_file w
      \/ exists amount wallet log log' record,
           Prompt.parse_ai_prompt prompt
           = Returns (Prompt.Stake amount wallet)
           /\ current_log (data_file w) = Some log
           /\ data_file w' = Stored log'
           /\ transactions log' = transactions log ++ [record]
           /\ record !! "type" = Some (VStr "staking")).
Proof.
  assert (Hsame : forall w0 : World,
            w0 = w ->
            config_file w0 = config_file w
            /\ (data_file w0 = data_file w
                \/ exists amount wallet log log' record,
                     Prompt.parse_ai_prompt prompt
                     = Returns (Prompt.Stake amount wallet)
                     /\ current_log (data_file w) = Some log
                     /\ data_file w0 = Stored log'
                     /\ transactions log' = transactions log ++ [record]
                     /\ record !! "type" = Some (VStr "staking")))
    by (intros w0 ->; split; [reflexivity | left; reflexivity]).
  cbv zeta. unfold Request.process_ai_request, bind, load_config, lift, ret.
  cbv beta. destruct (config_file w) as [config|] eqn:Hc; cbv beta iota;
    [|apply Hsame; reflexivity].
  destruct (Prompt.parse_ai_prompt prompt) as [[f t a|a|a wl| |p]|e] eqn:P;
    cbv beta iota; [| | | | |apply Hsame; reflexivity].
  - destruct (finite a) as [q|]; cbv beta iota; [|apply Hsame; reflexivity].
    pose proof (transfer_sol_world hash str_float f t q
                  (Request.cred_get credentials "private_key" "REQUIRED")
                  (Request.cred_get credentials "network" "devnet") w) as Hw.
    destruct (Handler.transfer_sol _ _ _ _ _ _ _ w) as [[r|e] w1];
      apply Hsame; exact Hw.
  - pose proof (query_balance_world a
                  (Request.cred_get credentials "network" "devnet") w) as Hw.
    destruct (Handler.query_balance _ _ w) as [[r|e] w1];
      apply Hsame; exact Hw.
  - destruct (finite a) as [q|]; cbv beta iota; [|apply Hsame; reflexivity].
    match goal with
    | |- context [Income.stake_for_rewards hash str_float now ?wa q ?v ?k ?n w] =>
        pose proof (stake_effect hash str_float now wa q v k n w) as He;
        destruct (Income.stake_for_rewards hash str_float now wa q v k n w)
          as [[r|e] w1]
    end; cbn [snd] in *;
      (destruct He as [Hcfg [Hd | (cfg & log & _ & Hlog & Hd)]];
       [split; [congruence | left; exact Hd]|];
       split; [congruence|]; right;
       eexists a, wl, log, _, _; split; [reflexivity|]; split; [exact Hlog|];
       split; [exact Hd|]; split; [reflexivity | apply staking_record_type]).
  - pose proof (proj1 (report_reads_only_here w)) as Hw.
    destruct (Income.get_income_report w) as [[r|e] w1];
      apply Hsame; exact Hw.
  - apply Hsame. reflexivity.
Qed.

Lemma stake_returns (hash : string -> Z) (str_float : Q -> string)
    now wallet amount validator private_key network w config log :
  config_file w = Some config ->
  current_log (data_file w) = Some log ->
  exists result,
    Income.stake_for_rewards hash str_float
      now wallet amount validator private_key network w
    = (Returns result,
       {| config_file := config_file w;
          data_dir := true;
          data_file := Stored {|
            transactions :=
              transactions log ++
              [<["timestamp" := VStr now]>
                 (Income.staking_record wallet amount
                    (devVaultWallet config))];
            total_income := (total_income log + amount)%Q |} |}).
Proof.
  intros Hc Hl. unfold Income.stake_for_rewards, bind at 1, load_config.
  rewrite Hc. unfold bind, ret.
  rewrite (log_income_transaction_numeric _ _ _ log Hl)
    by (right; eexists; apply staking_record_amount).
  unfold amount_of. rewrite staking_record_amount, ?Hc.
  eexists. reflexivity.
Qed.

Lemma staking_record_wallet now wallet amount dev_vault :
  (<["timestamp" := VStr now]>
     (Income.staking_record wallet amount dev_vault)) !! "wallet"
  = Some (VStr wallet).
Proof.
  unfold Income.staking_record.
  do 3 (rewrite lookup_insert_ne by discriminate). apply lookup_insert_eq.
Qed.

(** X16.  A stake prompt that names no wallet is logged under the wallet
    of the credentials when they hold a nonempty one, and under the
    placeholder "REQUIRED_WALLET" otherwise: the request goes through and
    the record is written all the same. *)
Theorem stake_without_wallet_uses_placeholder
    (hash : string -> Z) (str_float : Q -> string)
    (now prompt : string) (credentials : option (gmap string string))
    (w : World) (config : Config) (log : Log)
    (amount : Py.pyfloat) (q : Q) :
  config_file w = Some config ->
  current_log (data_file w) = Some log ->
  Prompt.parse_ai_prompt prompt = Returns (Prompt.Stake amount None) ->
  finite amount = Some q ->
  let wallet :=
    match credentials with
    | Some c =>
        match c !! "wallet" with
        | Some x => if String.eqb x "" then "REQUIRED_WALLET" else x
        | None => "REQUIRED_WALLET"
        end
    | None => "REQUIRED_WALLET"
    end in
  exists r w' log' record,
    Request.process_ai_request hash str_float now prompt credentials w
    = (Returns (Some r), w')
    /\ Request.operation r = "stake"
    /\ data_file w' = Stored log'
    /\ transactions log' = transactions log ++ [record]
    /\ record !! "wallet" = Some (VStr wallet).
Proof.
  intros Hc Hl Hp Hq wallet.
  unfold Request.process_ai_request, bind at 1, load_config. rewrite Hc.
  unfold bind at 1, lift. rewrite Hp, Hq. unfold bind, ret.
  assert (Hw : default "REQUIRED_WALLET"
                 (Request.py_or
                    (Request.py_or None
                       (Request.cred_find credentials "wallet"))
                    (Some "REQUIRED_WALLET")) = wallet).
  { subst wallet. unfold Request.cred_find, Request.truthy.
    destruct credentials as [c|]; [|reflexivity].
    destruct (bool_decide (c = ∅)) eqn:E.
    - apply bool_decide_eq_true in E. subst c. rewrite lookup_empty.
      reflexivity.
    - cbn [negb]. destruct (c !! "wallet") as [x|];
        cbn [Request.py_or]; [|reflexivity].
      destruct (String.eqb x ""); reflexivity. }
  rewrite Hw.
  destruct (stake_returns hash str_float now wallet q
              (Request.cred_get credentials "validator" "DEFAULT_VALIDATOR")
              (Request.cred_get credentials "private_key" "REQUIRED")
              (Request.cred_get credentials "network" "devnet")
              w config log Hc Hl) as [result ->].
  do 4 eexists. split; [reflexivity|]. split; [reflexivity|].
  split; [reflexivity|]. split; [reflexivity|].
  apply staking_record_wallet.
Qed.

Lemma stake_without_wallet_uses_placeholder_witness :
  exists r w' log' record,
    Request.process_ai_request sample_hash sample_str_float
      "2024-03-05T09:00:00" "Stake 10 SOL to generate passive income" None
      sample_world
    = (Returns (Some r), w')
    /\ Request.operation r = "stake"
    /\ data_file w' = Stored log'
    /\ transactions log' = transactions empty_log ++ [record]
    /\ record !! "wallet" = Some (VStr "REQUIRED_WALLET").
Proof.
  apply (stake_without_wallet_uses_placeholder sample_hash sample_str_float
           "2024-03-05T09:00:00" "Stake 10 SOL to generate passive income"
           None sample_world sample_config empty_log (Py.Finite 10) 10);
    vm_compute; reflexivity.
Defined.

(** ** The command line of the prompt handler *)

Lemma parse_flags_keys (args : list string) :
  forall (credentials : gmap string string) (k v : string),
    Request.parse_flags args credentials !! k = Some v ->
    credentials !! k = Some v
    \/ ((k = "private_key" \/ k = "network" \/ k = "validator")
        /\ In v args).
Proof.
  induction args as [|arg rest IH]; intros credentials k v;
    cbn [Request.parse_flags]; [auto|].
  intros H. apply IH in H as [H | [Hk Hv]];
    [|right; split; [exact Hk|]; right; exact Hv].
  destruct rest as [|next rest']; [left; exact H|].
  assert (Hset : forall key : string,
            (key = "private_key" \/ key = "network" \/ key = "validator") ->
            <[key := next]> credentials !! k = Some v ->
            credentials !! k = Some v
            \/ ((k = "private_key" \/ k = "network" \/ k = "validator")
                /\ In v (arg :: next :: rest'))).
  { intros key Hkey Hl. destruct (decide (key = k)) as [<-|Hne].
    - rewrite lookup_insert_eq in Hl. injection Hl as <-.
      right. split; [exact Hkey|]. right. left. reflexivity.
    - rewrite lookup_insert_ne in Hl by exact Hne. left. exact Hl. }
  destruct (String.eqb arg "--private-key");
    [apply (Hset "private_key"); [auto | exact H]|].
  destruct (String.eqb arg "--network");
    [apply (Hset "network"); [auto | exact H]|].
  destruct (String.eqb arg "--validator");
    [apply (Hset "validator"); [auto | exact H]|].
  left. exact H.
Qed.

(** X17.  The credentials [main] builds from the command line hold no
    other keys than [private_key], [network] and [validator], each with one
    of the arguments as its value: a wallet cannot be given that way, so a
    stake prompt without a wallet run from the command line is logged under
    the placeholder. *)
Theorem command_line_credentials (flags : list string) (k v : string) :
  Request.parse_flags flags ∅ !! k = Some v ->
  (k = "private_key" \/ k = "network" \/ k = "validator")
  /\ In v flags
  /\ Request.parse_flags flags ∅ !! "wallet" = None.
Proof.
  intros H. apply parse_flags_keys in H as [H | [Hk Hv]].
  { rewrite lookup_empty in H. discriminate. }
  split; [exact Hk|]. split; [exact Hv|].
  destruct (Request.parse_flags flags ∅ !! "wallet") as [x|] eqn:E;
    [|reflexivity].
  apply parse_flags_keys in E as [E | [[E | [E | E]] _]];
    [rewrite lookup_empty in E|..]; discriminate.
Qed.

Lemma command_line_credentials_witness :
  ("network" = "private_key" \/ "network" = "network"
   \/ "network" = "validator")
  /\ In "mainnet" ["--wallet"; "w1"; "--network"; "mainnet"; "--validator"]
  /\ Request.parse_flags
       ["--wallet"; "w1"; "--network"; "mainnet"; "--validator"] ∅
       !! "wallet" = None.
Proof.
  apply (command_line_credentials
           ["--wallet"; "w1"; "--network"; "mainnet"; "--validator"]
           "network" "mainnet").
  vm_compute. reflexivity.
Defined.

(** ** The command lines of the stubs *)



(** X19.  The stake command line converts its amount before anything
    else: an amount that [float] rejects raises its [ValueError] with no
    file read or written, not even the data directory. *)
Theorem stake_command_rejects_amount_first
    (hash : string -> Z) (str_float : Q -> string)
    (now prog wallet amount validator private_key : string)
    (more : list string) (e : exn) (w : World) :
  Py.float amount = Raises e ->
  Cli.income_main hash str_float now
    (prog :: "stake" :: wallet :: amount :: validator :: private_key :: more)
    w
  = (Raises e, w).
Proof.
  intros H. unfold Cli.income_main.
  change (String.eqb "stake" "stake") with true. cbv iota.
  unfold bind at 1, lift. rewrite H. reflexivity.
Qed.

Lemma stake_command_rejects_amount_first_witness :
  Cli.income_main sample_hash sample_str_float "2024-01-01T10:00:00"
    ["passive_income_generator.py"; "stake"; "wallet1"; "ten";
     "validator1"; "key"]
    {| config_file := None; data_dir := false; data_file := Absent |}
  = (Raises ValueError,
     {| config_file := None; data_dir := false; data_file := Absent |}).
Proof.
  apply (stake_command_rejects_amount_first sample_hash sample_str_float).
  reflexivity.
Defined.
